(** * The Square payments route: [src/app/api/payments/square/route.ts]

    A shallow embedding of the two handlers of the route, [POST]
    (create a payment) and [PUT] (update a payment's status), and the
    properties of the payment-intake workflow proved about them.

    The handlers compose three collaborators that live outside the file:
    the request body parser of the HTTP framework, the payment gateway
    ([createPayment] of [@/lib/square]) and the relational store (the
    [supabase] client).  They are taken as an environment of oracles over an
    abstract world; every call a handler makes is recorded in a trace. *)

From Stdlib Require Import ZArith QArith Bool List String Ascii Lia.
From Stdlib Require Import DecimalString.
Import ListNotations.
Local Open Scope string_scope.
Local Set Warnings "-register-all".

(** ** JavaScript values *)

(** The Number type.  A finite number is given by its exact value; the
    rounding of IEEE-754 arithmetic is not part of the model, so
    [amount / 100] denotes the exact quotient. *)
Inductive JsNum : Type :=
| Finite (q : Q)
| NaN
| PosInfinity
| NegInfinity.

(** What [request.json()] and the store can produce, together with
    [undefined], the value of an absent property. *)
Inductive JsValue : Type :=
| JUndefined
| JNull
| JBool (b : bool)
| JNum (n : JsNum)
| JStr (s : string)
| JArr (elements : list JsValue)
| JObj (properties : list (string * JsValue)).

Module Num.

  (** [q] has no fractional part. *)
Definition integral (q : Q) : bool :=
    (Qnum q mod Zpos (Qden q) =? 0)%Z.

Definition is_zero (n : JsNum) : bool :=
    match n with
    | Finite q => Qeq_bool q 0
    | _ => false
    end.

  (** [n <= 0] *)
Definition le_zero (n : JsNum) : bool :=
    match n with
    | Finite q => Qle_bool q 0
    | NegInfinity => true
    | NaN | PosInfinity => false
    end.

  (** [n / d] for a finite, non-zero divisor [d]. *)
Definition div (n : JsNum) (d : Q) : JsNum :=
    match n with
    | Finite q => Finite (q / d)
    | NaN => NaN
    | PosInfinity => if Qle_bool 0 d then PosInfinity else NegInfinity
    | NegInfinity => if Qle_bool 0 d then NegInfinity else PosInfinity
    end.

Definition eqb (a b : JsNum) : bool :=
    match a, b with
    | Finite p, Finite q => Qeq_bool p q
    | PosInfinity, PosInfinity => true
    | NegInfinity, NegInfinity => true
    | _, _ => false
    end.

End Num.

(** ToBoolean: [undefined], [null], [false], [0], [NaN] and the empty string
    are falsy; every object and array is truthy. *)
Definition truthy (v : JsValue) : bool :=
  match v with
  | JUndefined | JNull => false
  | JBool b => b
  | JNum NaN => false
  | JNum n => negb (Num.is_zero n)
  | JStr s => negb (String.eqb s "")
  | JArr _ | JObj _ => true
  end.

(** [Number.isInteger(v)]: no coercion, [false] on anything but a finite
    number without fractional part. *)
Definition Number_isInteger (v : JsValue) : bool :=
  match v with
  | JNum (Finite q) => Num.integral q
  | _ => false
  end.

(** [v <= 0] and [v / 100].  The handlers evaluate them on values that passed
    [Number.isInteger] only, which are numbers; on other values JavaScript
    would first apply ToNumber, which these definitions leave out (they
    answer as for [NaN]). *)
Definition js_le_zero (v : JsValue) : bool :=
  match v with
  | JNum n => Num.le_zero n
  | _ => false
  end.

Definition js_div (v : JsValue) (d : Q) : JsValue :=
  match v with
  | JNum n => JNum (Num.div n d)
  | _ => JNum NaN
  end.

Fixpoint lookup (k : string) (ps : list (string * JsValue)) : JsValue :=
  match ps with
  | [] => JUndefined
  | (k', v) :: rest => if String.eqb k k' then v else lookup k rest
  end.

Fixpoint has_key (k : string) (ps : list (string * JsValue)) : bool :=
  match ps with
  | [] => false
  | (k', _) :: rest => String.eqb k k' || has_key k rest
  end.

(** Property read [v.k], as in [paymentRecord.id] and in the destructuring of
    the request body: a TypeError ([None]) on [null] and [undefined], the own
    property of an object, [undefined] otherwise.  The names the route reads
    ([sourceId], [amount], [description], [idempotencyKey], [userId],
    [tournamentId], [paymentId], [status], [id]) are not properties of the
    String, Number, Boolean, Array or Object prototypes. *)
Definition get_prop (v : JsValue) (k : string) : option JsValue :=
  match v with
  | JUndefined | JNull => None
  | JObj ps => Some (lookup k ps)
  | _ => Some JUndefined
  end.

(** ToString, as applied by the template literal
    [`tournament_${tournamentId}`].  [number_to_string] is the runtime's
    Number::toString.  An array is joined with commas ([null] and
    [undefined] elements give the empty string).  An object parsed from JSON
    has no callable own property: when it has an own [toString] member the
    conversion to a primitive fails with a TypeError ([None]), otherwise
    Object.prototype.toString answers. *)
Section ToString.

Variable number_to_string : JsNum -> string.

Fixpoint ToString (v : JsValue) : option string :=
    match v with
    | JUndefined => Some "undefined"
    | JNull => Some "null"
    | JBool true => Some "true"
    | JBool false => Some "false"
    | JNum n => Some (number_to_string n)
    | JStr s => Some s
    | JArr l =>
        let element (x : JsValue) : option string :=
          match x with
          | JUndefined | JNull => Some ""
          | _ => ToString x
          end in
        (fix join (xs : list JsValue) : option string :=
           match xs with
           | [] => Some ""
           | [x] => element x
           | x :: rest =>
               match element x, join rest with
               | Some a, Some b => Some (a ++ "," ++ b)
               | _, _ => None
               end
           end) l
    | JObj ps =>
        if has_key "toString" ps then None else Some "[object Object]"
    end.

End ToString.

(** Strings.  A string is given by the bytes of its UTF-8 encoding.
    [String.prototype.toLowerCase] maps every cased letter of Unicode; it is
    part of the runtime and is taken from the environment below.  What it
    does on a string of ASCII characters is known in full: the letters [A]
    to [Z] go to [a] to [z] and nothing else changes.  [ascii_toLowerCase]
    is that function, and [lowercases_ascii] says of a runtime function that
    it agrees with it on ASCII strings. *)
Definition lower_ascii (c : ascii) : ascii :=
  let n := nat_of_ascii c in
  if (65 <=? n)%nat && (n <=? 90)%nat then ascii_of_nat (n + 32) else c.

Fixpoint ascii_toLowerCase (s : string) : string :=
  match s with
  | EmptyString => EmptyString
  | String c rest => String (lower_ascii c) (ascii_toLowerCase rest)
  end.

Fixpoint ascii_only (s : string) : bool :=
  match s with
  | EmptyString => true
  | String c rest => (nat_of_ascii c <? 128)%nat && ascii_only rest
  end.

(** [s] has one of the letters [A] to [Z]. *)
Fixpoint has_ascii_capital (s : string) : bool :=
  match s with
  | EmptyString => false
  | String c rest =>
      ((65 <=? nat_of_ascii c)%nat && (nat_of_ascii c <=? 90)%nat)
      || has_ascii_capital rest
  end.

Definition lowercases_ascii (lower : string -> string) : Prop :=
  forall s : string, ascii_only s = true -> lower s = ascii_toLowerCase s.

(** ** The collaborators' data *)

(** Errors a handler can see thrown: the gateway's own error class, which
    carries a human-readable message, and everything else (the SyntaxError of
    a body that is not JSON, a TypeError, a network failure). *)
Inductive JsError : Type :=
| SquarePaymentError (message : string)
| OtherError (name : string).

Inductive Completion (A : Type) : Type :=
| Normal (a : A)
| Throw (e : JsError).
Arguments Normal {A} a.
Arguments Throw {A} e.

Module Payment.
(** Modelled from the spec: the result type of [createPayment], declared in
    [@/lib/square], which is not under src/.  The gateway returns the
    charge's identifier, amount (minor units), currency and status. *)
Record t : Type := make {
    id : string;
    amount : JsNum;
    currency : string;
    status : string
  }.

Definition to_js (p : t) : JsValue :=
    JObj [("id", JStr (id p)); ("amount", JNum (amount p));
          ("currency", JStr (currency p)); ("status", JStr (status p))].
End Payment.

(** The argument of [createPayment]; [referenceId] is [None] for
    [undefined]. *)
Module ChargeArgs.
Record t : Type := make {
    sourceId : JsValue;
    amount : JsValue;
    currency : string;
    idempotencyKey : JsValue;
    note : JsValue;
    referenceId : option string
  }.
End ChargeArgs.

(** The row passed to [supabase.from('payments').insert]. *)
Module PaymentInsert.
Record t : Type := make {
    user_id : JsValue;
    tournament_id : JsValue;
    square_payment_id : string;
    amount : JsValue;
    currency : string;
    status : string;
    payment_type : string;
    description : JsValue;
    metadata_square_payment : Payment.t;
    metadata_idempotency_key : JsValue
  }.
End PaymentInsert.

(** The fields passed to [supabase.from('tournament_registrations').update]. *)
Module RegistrationUpdate.
Record t : Type := make {
    payment_status : string;
    payment_id : string;
    payment_amount : JsValue
  }.
End RegistrationUpdate.

(** The fields passed to [supabase.from('payments').update]. *)
Module PaymentUpdate.
Record t : Type := make {
    status : string;
    updated_at : string
  }.
End PaymentUpdate.

(** What a store query resolves to: [{ data, error }], [error] being [null]
    ([None]) on success. *)
Record StoreReply : Type := {
  data : JsValue;
  error : option string
}.

(** The calls a handler makes to the gateway and to the store, each with the
    reply it got. *)
Inductive Call : Type :=
| CallCreatePayment (args : ChargeArgs.t) (reply : Completion Payment.t)
| CallInsertPayment (row : PaymentInsert.t) (reply : StoreReply)
| CallUpdateRegistration (fields : RegistrationUpdate.t)
    (tournament_id user_id : JsValue) (reply : option string)
| CallUpdatePayment (fields : PaymentUpdate.t) (square_payment_id : JsValue)
    (reply : StoreReply).

Definition is_gateway_call (c : Call) : bool :=
  match c with
  | CallCreatePayment _ _ => true
  | _ => false
  end.

Definition is_store_call (c : Call) : bool :=
  negb (is_gateway_call c).

Definition is_registration_update (c : Call) : bool :=
  match c with
  | CallUpdateRegistration _ _ _ _ => true
  | _ => false
  end.

(** The environment of a handler over a world [W]: the runtime's number
    formatting and [String.prototype.toLowerCase], the gateway, the three
    store queries the route issues and the clock behind
    [new Date().toISOString()].  The gateway returns a payment
    or throws; a store query resolves to its reply, failure being an error
    value in the reply. *)
Record Env (W : Type) : Type := {
  Number_toString : JsNum -> string;
  toLowerCase : string -> string;
  createPayment : ChargeArgs.t -> W -> Completion Payment.t * W;
  payments_insert : PaymentInsert.t -> W -> StoreReply * W;
  registrations_update :
    RegistrationUpdate.t -> JsValue -> JsValue -> W -> option string * W;
  payments_update : PaymentUpdate.t -> JsValue -> W -> StoreReply * W;
  Date_now_toISOString : W -> string * W
}.
Arguments Number_toString {W} _ _.
Arguments toLowerCase {W} _ _.
Arguments createPayment {W} _ _ _.
Arguments payments_insert {W} _ _ _.
Arguments registrations_update {W} _ _ _ _ _.
Arguments payments_update {W} _ _ _ _.
Arguments Date_now_toISOString {W} _ _.

(** ** The handlers' monad: world, call trace and console, with exceptions *)

Record Run (W : Type) : Type := {
  world : W;
  calls : list Call;
  console : list string
}.
Arguments world {W} _.
Arguments calls {W} _.
Arguments console {W} _.

Definition start {W : Type} (w : W) : Run W :=
  {| world := w; calls := []; console := [] |}.

Definition M (W A : Type) : Type := Run W -> Completion A * Run W.

Definition ret {W A : Type} (a : A) : M W A :=
  fun r => (Normal a, r).

Definition throw {W A : Type} (e : JsError) : M W A :=
  fun r => (Throw e, r).

Definition bind {W A B : Type} (m : M W A) (k : A -> M W B) : M W B :=
  fun r =>
    match m r with
    | (Normal a, r') => k a r'
    | (Throw e, r') => (Throw e, r')
    end.

Notation "x <- m ;; k" := (bind m (fun x => k))
  (at level 61, m at next level, right associativity).
Notation "m ;;; k" := (bind m (fun _ => k))
  (at level 61, right associativity).

(** [console.error(label, ...)] *)
Definition log {W : Type} (label : string) (r : Run W) : Run W :=
  {| world := world r; calls := calls r; console := console r ++ [label] |}.

Definition console_error {W : Type} (label : string) : M W unit :=
  fun r => (Normal tt, log label r).

(** [try { body } catch (error) { handler }], for a handler that returns
    normally. *)
Definition try_catch {W A : Type} (body : M W A)
    (handler : JsError -> Run W -> A * Run W) (r : Run W) : A * Run W :=
  match body r with
  | (Normal a, r') => (a, r')
  | (Throw e, r') => handler e r'
  end.

Definition record_call {W : Type} (c : Call) (r : Run W) : Run W :=
  {| world := world r; calls := calls r ++ [c]; console := console r |}.

Definition with_world {W : Type} (w : W) (r : Run W) : Run W :=
  {| world := w; calls := calls r; console := console r |}.

(** ** The route's primitive steps *)

(** [NextResponse.json(payload, { status })]; the status is 200 when the
    second argument is left out. *)
Record Response : Type := {
  http_status : Z;
  payload : JsValue
}.

Definition NextResponse_json (body : JsValue) (status : Z) : Response :=
  {| http_status := status; payload := body |}.

(** A member of the response's payload ([undefined] when absent). *)
Definition field (r : Response) (k : string) : JsValue :=
  match get_prop (payload r) k with
  | Some v => v
  | None => JUndefined
  end.

(** [await request.json()]: [None] stands for a body that is not JSON, on
    which the promise rejects with a SyntaxError. *)
Definition request_json {W : Type} (request : option JsValue) : M W JsValue :=
  match request with
  | Some body => ret body
  | None => throw (OtherError "SyntaxError")
  end.

(** One binding of [const { ... } = body]. *)
Definition prop {W : Type} (v : JsValue) (k : string) : M W JsValue :=
  match get_prop v k with
  | Some x => ret x
  | None => throw (OtherError "TypeError")
  end.

(** The substitution [${v}] of a template literal. *)
Definition template {W : Type} (env : Env W) (v : JsValue) : M W string :=
  match ToString (Number_toString env) v with
  | Some s => ret s
  | None => throw (OtherError "TypeError")
  end.

(** [status.toLowerCase()] on a request value: only a string has the
    method. *)
Definition call_toLowerCase {W : Type} (env : Env W) (v : JsValue)
    : M W string :=
  match v with
  | JStr s => ret (toLowerCase env s)
  | _ => throw (OtherError "TypeError")
  end.

Definition await_createPayment {W : Type} (env : Env W) (args : ChargeArgs.t)
    : M W Payment.t :=
  fun r =>
    let (reply, w) := createPayment env args (world r) in
    (reply, with_world w (record_call (CallCreatePayment args reply) r)).

Definition await_payments_insert {W : Type} (env : Env W)
    (row : PaymentInsert.t) : M W StoreReply :=
  fun r =>
    let (reply, w) := payments_insert env row (world r) in
    (Normal reply,
     with_world w (record_call (CallInsertPayment row reply) r)).

Definition await_registrations_update {W : Type} (env : Env W)
    (fields : RegistrationUpdate.t) (tournament_id user_id : JsValue)
    : M W (option string) :=
  fun r =>
    let (reply, w) :=
      registrations_update env fields tournament_id user_id (world r) in
    (Normal reply,
     with_world w
       (record_call
          (CallUpdateRegistration fields tournament_id user_id reply) r)).

Definition await_payments_update {W : Type} (env : Env W)
    (fields : PaymentUpdate.t) (square_payment_id : JsValue)
    : M W StoreReply :=
  fun r =>
    let (reply, w) := payments_update env fields square_payment_id (world r) in
    (Normal reply,
     with_world w
       (record_call (CallUpdatePayment fields square_payment_id reply) r)).

Definition new_Date_toISOString {W : Type} (env : Env W) : M W string :=
  fun r =>
    let (t, w) := Date_now_toISOString env (world r) in
    (Normal t, with_world w r).

(** ** [POST]: create a payment *)

Definition missing_information : Response :=
  NextResponse_json
    (JObj [("success", JBool false);
           ("error", JStr "Missing required payment information")]) 400.

Definition invalid_amount : Response :=
  NextResponse_json
    (JObj [("success", JBool false);
           ("error", JStr "Invalid payment amount")]) 400.

Definition record_creation_failed (payment : Payment.t) : Response :=
  NextResponse_json
    (JObj [("success", JBool true);
           ("paymentId", JStr (Payment.id payment));
           ("warning", JStr "Payment processed but record creation failed")])
    200.

Definition payment_created (payment : Payment.t) (recordId : JsValue)
    : Response :=
  NextResponse_json
    (JObj [("success", JBool true);
           ("paymentId", JStr (Payment.id payment));
           ("amount", JNum (Payment.amount payment));
           ("status", JStr (Payment.status payment));
           ("recordId", recordId)]) 200.

Definition gateway_rejected (message : string) : Response :=
  NextResponse_json
    (JObj [("success", JBool false); ("error", JStr message)]) 400.

Definition processing_failed : Response :=
  NextResponse_json
    (JObj [("success", JBool false);
           ("error", JStr "Payment processing failed")]) 500.

(** The [try] block of [POST]. *)
Definition POST_body {W : Type} (env : Env W) (request : option JsValue)
    : M W Response :=
  body <- request_json request ;;
  sourceId <- prop body "sourceId" ;;
  amount <- prop body "amount" ;;
  description <- prop body "description" ;;
  idempotencyKey <- prop body "idempotencyKey" ;;
  userId <- prop body "userId" ;;
  tournamentId <- prop body "tournamentId" ;;
  if negb (truthy sourceId) || negb (truthy amount)
     || negb (truthy idempotencyKey)
  then ret missing_information
  else if negb (Number_isInteger amount) || js_le_zero amount
  then ret invalid_amount
  else
    referenceId <-
      (if truthy tournamentId
       then s <- template env tournamentId ;; ret (Some ("tournament_" ++ s))
       else ret None) ;;
    payment <- await_createPayment env
      {| ChargeArgs.sourceId := sourceId;
         ChargeArgs.amount := amount;
         ChargeArgs.currency := "GBP";
         ChargeArgs.idempotencyKey := idempotencyKey;
         ChargeArgs.note := description;
         ChargeArgs.referenceId := referenceId |} ;;
    inserted <- await_payments_insert env
      {| PaymentInsert.user_id := userId;
         PaymentInsert.tournament_id := tournamentId;
         PaymentInsert.square_payment_id := Payment.id payment;
         PaymentInsert.amount := js_div amount 100;
         PaymentInsert.currency := Payment.currency payment;
         PaymentInsert.status := toLowerCase env (Payment.status payment);
         PaymentInsert.payment_type :=
           if truthy tournamentId then "entry_fee" else "other";
         PaymentInsert.description := description;
         PaymentInsert.metadata_square_payment := payment;
         PaymentInsert.metadata_idempotency_key := idempotencyKey |} ;;
    match error inserted with
    | Some dbError =>
        console_error "Database error:" ;;;
        ret (record_creation_failed payment)
    | None =>
        (if truthy tournamentId && truthy userId
         then
           registrationError <- await_registrations_update env
             {| RegistrationUpdate.payment_status := "completed";
                RegistrationUpdate.payment_id := Payment.id payment;
                RegistrationUpdate.payment_amount := js_div amount 100 |}
             tournamentId userId ;;
           match registrationError with
           | Some _ => console_error "Registration update error:"
           | None => ret tt
           end
         else ret tt) ;;;
        recordId <- prop (data inserted) "id" ;;
        ret (payment_created payment recordId)
    end.

(** The [catch] block of [POST]. *)
Definition POST_catch {W : Type} (e : JsError) (r : Run W)
    : Response * Run W :=
  let r := log "Payment processing error:" r in
  match e with
  | SquarePaymentError message => (gateway_rejected message, r)
  | OtherError _ => (processing_failed, r)
  end.

Definition POST {W : Type} (env : Env W) (request : option JsValue) (w : W)
    : Response * Run W :=
  try_catch (POST_body env request) POST_catch (start w).

(** ** [PUT]: update a payment's status *)

Definition missing_id_or_status : Response :=
  NextResponse_json
    (JObj [("success", JBool false);
           ("error", JStr "Missing payment ID or status")]) 400.

Definition status_update_failed : Response :=
  NextResponse_json
    (JObj [("success", JBool false);
           ("error", JStr "Failed to update payment status")]) 500.

Definition payment_updated (row : JsValue) : Response :=
  NextResponse_json (JObj [("success", JBool true); ("payment", row)]) 200.

Definition update_failed : Response :=
  NextResponse_json
    (JObj [("success", JBool false);
           ("error", JStr "Payment update failed")]) 500.

(** The [try] block of [PUT]. *)
Definition PUT_body {W : Type} (env : Env W) (request : option JsValue)
    : M W Response :=
  body <- request_json request ;;
  paymentId <- prop body "paymentId" ;;
  status <- prop body "status" ;;
  if negb (truthy paymentId) || negb (truthy status)
  then ret missing_id_or_status
  else
    lowered <- call_toLowerCase env status ;;
    updated_at <- new_Date_toISOString env ;;
    updated <- await_payments_update env
      {| PaymentUpdate.status := lowered;
         PaymentUpdate.updated_at := updated_at |} paymentId ;;
    match error updated with
    | Some _ =>
        console_error "Payment update error:" ;;;
        ret status_update_failed
    | None => ret (payment_updated (data updated))
    end.

(** The [catch] block of [PUT]. *)
Definition PUT_catch {W : Type} (e : JsError) (r : Run W)
    : Response * Run W :=
  (update_failed, log "Payment update error:" r).

Definition PUT {W : Type} (env : Env W) (request : option JsValue) (w : W)
    : Response * Run W :=
  try_catch (PUT_body env request) PUT_catch (start w).

(** ** A reference backend

    An in-memory instance of the environment, on which the handlers run to
    completion: a gateway given by a function, the two tables as lists of
    rows, a counter for row identifiers, switches that make the insert or the
    registration update fail, and a clock.  The theorems below hold for every
    environment; this one provides the concrete runs. *)

(** Equality of identifiers (primitive values); arrays and objects never
    match. *)
Definition key_eqb (a b : JsValue) : bool :=
  match a, b with
  | JBool x, JBool y => Bool.eqb x y
  | JNum x, JNum y => Num.eqb x y
  | JStr x, JStr y => String.eqb x y
  | _, _ => false
  end.

(** A column value: [undefined] is not serialised and the column is NULL. *)
Definition column (v : JsValue) : JsValue :=
  match v with
  | JUndefined => JNull
  | _ => v
  end.

Fixpoint set_property (k : string) (v : JsValue)
    (ps : list (string * JsValue)) : list (string * JsValue) :=
  match ps with
  | [] => [(k, v)]
  | (k', v') :: rest =>
      if String.eqb k k' then (k, v) :: rest
      else (k', v') :: set_property k v rest
  end.

Definition set_properties (updates : list (string * JsValue)) (row : JsValue)
    : JsValue :=
  match row with
  | JObj ps =>
      JObj (fold_left (fun acc kv => set_property (fst kv) (snd kv) acc)
              updates ps)
  | _ => row
  end.

Definition column_of (row : JsValue) (k : string) : JsValue :=
  match row with
  | JObj ps => lookup k ps
  | _ => JUndefined
  end.

(** Modelled from the spec: the state of the collaborators behind
    [@/lib/square] and [@/lib/supabase], which are not under src/: the
    gateway's behaviour, the tables [payments] and [tournament_registrations]
    as lists of rows, the next row identifier, the faults to inject and the
    clock. *)
Record Backend : Type := {
  gateway : ChargeArgs.t -> Completion Payment.t;
  payments : list JsValue;
  tournament_registrations : list JsValue;
  next_id : Z;
  insert_fault : option string;
  registration_fault : option string;
  clock : string
}.

Definition payment_row (id : Z) (row : PaymentInsert.t) : JsValue :=
  JObj [("id", JNum (Finite (inject_Z id)));
        ("user_id", column (PaymentInsert.user_id row));
        ("tournament_id", column (PaymentInsert.tournament_id row));
        ("square_payment_id", JStr (PaymentInsert.square_payment_id row));
        ("amount", PaymentInsert.amount row);
        ("currency", JStr (PaymentInsert.currency row));
        ("status", JStr (PaymentInsert.status row));
        ("payment_type", JStr (PaymentInsert.payment_type row));
        ("description", column (PaymentInsert.description row));
        ("metadata",
         JObj [("square_payment",
                Payment.to_js (PaymentInsert.metadata_square_payment row));
               ("idempotency_key",
                column (PaymentInsert.metadata_idempotency_key row))])].

(** [insert(row).select().single()] *)
Definition backend_insert (row : PaymentInsert.t) (b : Backend)
    : StoreReply * Backend :=
  match insert_fault b with
  | Some e => ({| data := JNull; error := Some e |}, b)
  | None =>
      let stored := payment_row (next_id b) row in
      ({| data := stored; error := None |},
       {| gateway := gateway b;
          payments := payments b ++ [stored];
          tournament_registrations := tournament_registrations b;
          next_id := (next_id b + 1)%Z;
          insert_fault := insert_fault b;
          registration_fault := registration_fault b;
          clock := clock b |})
  end.

(** [update(fields).eq('tournament_id', t).eq('user_id', u)] *)
Definition backend_update_registration (fields : RegistrationUpdate.t)
    (tournament_id user_id : JsValue) (b : Backend)
    : option string * Backend :=
  match registration_fault b with
  | Some e => (Some e, b)
  | None =>
      let updates :=
        [("payment_status", JStr (RegistrationUpdate.payment_status fields));
         ("payment_id", JStr (RegistrationUpdate.payment_id fields));
         ("payment_amount", RegistrationUpdate.payment_amount fields)] in
      let touch (row : JsValue) : JsValue :=
        if key_eqb (column_of row "tournament_id") tournament_id
           && key_eqb (column_of row "user_id") user_id
        then set_properties updates row else row in
      (None,
       {| gateway := gateway b;
          payments := payments b;
          tournament_registrations := map touch (tournament_registrations b);
          next_id := next_id b;
          insert_fault := insert_fault b;
          registration_fault := registration_fault b;
          clock := clock b |})
  end.

(** Modelled from the spec: the payments table behind the [supabase] client
    of [@/lib/supabase], which is not under src/.
    [update(fields).eq('square_payment_id', id).select().single()] locates
    the record by the gateway payment identifier, overwrites the given
    fields and returns the record; exactly one row is expected to match,
    otherwise the reply is an error and nothing changes. *)
Definition backend_update_payment (fields : PaymentUpdate.t)
    (square_payment_id : JsValue) (b : Backend) : StoreReply * Backend :=
  let matches (row : JsValue) : bool :=
    key_eqb (column_of row "square_payment_id") square_payment_id in
  let updates :=
    [("status", JStr (PaymentUpdate.status fields));
     ("updated_at", JStr (PaymentUpdate.updated_at fields))] in
  match filter matches (payments b) with
  | [row] =>
      ({| data := set_properties updates row; error := None |},
       {| gateway := gateway b;
          payments :=
            map (fun r => if matches r then set_properties updates r else r)
              (payments b);
          tournament_registrations := tournament_registrations b;
          next_id := next_id b;
          insert_fault := insert_fault b;
          registration_fault := registration_fault b;
          clock := clock b |})
  | _ =>
      ({| data := JNull;
          error := Some "multiple (or no) rows returned" |},
       b)
  end.

(** Number::toString on the integers the examples use (decimal digits). *)
Definition integer_toString (n : JsNum) : string :=
  match n with
  | Finite q =>
      NilZero.string_of_int (Z.to_int (Qnum q / Zpos (Qden q)))
  | NaN => "NaN"
  | PosInfinity => "Infinity"
  | NegInfinity => "-Infinity"
  end.

(** The backend under a runtime whose [toLowerCase] is [lower]. *)
Definition backend_with (lower : string -> string) : Env Backend :=
  {| Number_toString := integer_toString;
     toLowerCase := lower;
     createPayment := fun args b => (gateway b args, b);
     payments_insert := backend_insert;
     registrations_update := backend_update_registration;
     payments_update := backend_update_payment;
     Date_now_toISOString := fun b => (clock b, b) |}.

(** The backend of the examples, whose strings are ASCII. *)
Definition backend : Env Backend := backend_with ascii_toLowerCase.

(** A gateway that accepts every charge and reports the amount it was asked
    to charge. *)
Definition accepting_gateway (args : ChargeArgs.t) : Completion Payment.t :=
  Normal
    {| Payment.id := "sq_pay_1";
       Payment.amount :=
         match ChargeArgs.amount args with
         | JNum n => n
         | _ => NaN
         end;
       Payment.currency := ChargeArgs.currency args;
       Payment.status := "COMPLETED" |}.


Definition declining_gateway (args : ChargeArgs.t) : Completion Payment.t :=
  Throw (SquarePaymentError "Card declined").

Definition registration_row (tournament_id user_id : string) : JsValue :=
  JObj [("tournament_id", JStr tournament_id); ("user_id", JStr user_id);
        ("payment_status", JStr "pending"); ("payment_id", JNull);
        ("payment_amount", JNull)].

Definition shop (g : ChargeArgs.t -> Completion Payment.t) : Backend :=
  {| gateway := g;
     payments := [];
     tournament_registrations := [registration_row "t7" "u1"];
     next_id := 1;
     insert_fault := None;
     registration_fault := None;
     clock := "2024-05-01T10:00:00.000Z" |}.

Definition with_insert_fault (b : Backend) : Backend :=
  {| gateway := gateway b;
     payments := payments b;
     tournament_registrations := tournament_registrations b;
     next_id := next_id b;
     insert_fault := Some "relation payments is not reachable";
     registration_fault := registration_fault b;
     clock := clock b |}.

Definition with_registration_fault (b : Backend) : Backend :=
  {| gateway := gateway b;
     payments := payments b;
     tournament_registrations := tournament_registrations b;
     next_id := next_id b;
     insert_fault := insert_fault b;
     registration_fault := Some "permission denied";
     clock := clock b |}.

(** Example request bodies. *)
Definition entry_fee_request : JsValue :=
  JObj [("sourceId", JStr "cnon:card-nonce-ok");
        ("amount", JNum (Finite 500));
        ("description", JStr "Entry fee");
        ("idempotencyKey", JStr "key-1");
        ("userId", JStr "u1");
        ("tournamentId", JStr "t7")].

Definition donation_request : JsValue :=
  JObj [("sourceId", JStr "cnon:card-nonce-ok");
        ("amount", JNum (Finite 500));
        ("idempotencyKey", JStr "key-2")].

(** The example runs: what the entry-fee request sends to the gateway, what
    the accepting gateway answers and the record the handler builds. *)
Definition entry_fee_args : ChargeArgs.t :=
  {| ChargeArgs.sourceId := JStr "cnon:card-nonce-ok";
     ChargeArgs.amount := JNum (Finite 500);
     ChargeArgs.currency := "GBP";
     ChargeArgs.idempotencyKey := JStr "key-1";
     ChargeArgs.note := JStr "Entry fee";
     ChargeArgs.referenceId := Some "tournament_t7" |}.

Definition entry_fee_payment : Payment.t :=
  {| Payment.id := "sq_pay_1";
     Payment.amount := Finite 500;
     Payment.currency := "GBP";
     Payment.status := "COMPLETED" |}.

Definition entry_fee_record : PaymentInsert.t :=
  {| PaymentInsert.user_id := JStr "u1";
     PaymentInsert.tournament_id := JStr "t7";
     PaymentInsert.square_payment_id := "sq_pay_1";
     PaymentInsert.amount := JNum (Finite (500 / 100));
     PaymentInsert.currency := "GBP";
     PaymentInsert.status := "completed";
     PaymentInsert.payment_type := "entry_fee";
     PaymentInsert.description := JStr "Entry fee";
     PaymentInsert.metadata_square_payment := entry_fee_payment;
     PaymentInsert.metadata_idempotency_key := JStr "key-1" |}.

Definition donation_args : ChargeArgs.t :=
  {| ChargeArgs.sourceId := JStr "cnon:card-nonce-ok";
     ChargeArgs.amount := JNum (Finite 500);
     ChargeArgs.currency := "GBP";
     ChargeArgs.idempotencyKey := JStr "key-2";
     ChargeArgs.note := JUndefined;
     ChargeArgs.referenceId := None |}.

(** The backend after the entry fee was paid: one payment record, with
    [square_payment_id] ["sq_pay_1"] and status ["completed"]. *)
Definition paid_shop : Backend :=
  world (snd (POST backend (Some entry_fee_request) (shop accepting_gateway))).

(** Requests off the expected shape. *)
Definition negative_amount_request : JsValue :=
  JObj [("sourceId", JStr "cnon:card-nonce-ok");
        ("amount", JNum (Finite (-5)));
        ("idempotencyKey", JStr "key-3")].

Definition unprintable_tournament_request : JsValue :=
  JObj [("sourceId", JStr "cnon:card-nonce-ok");
        ("amount", JNum (Finite 500));
        ("idempotencyKey", JStr "key-4");
        ("tournamentId", JObj [("toString", JNum (Finite 1))])].

Definition refund_update : JsValue :=
  JObj [("paymentId", JStr "sq_pay_1"); ("status", JStr "REFUNDED")].

Definition numeric_status_update : JsValue :=
  JObj [("paymentId", JStr "sq_pay_1"); ("status", JNum (Finite 5))].

Definition numeric_status_without_id : JsValue :=
  JObj [("status", JNum (Finite 5))].

Definition false_status_update : JsValue :=
  JObj [("paymentId", JStr "sq_pay_1"); ("status", JBool false)].

(** The runs the examples look at. *)
Definition entry_fee_run : Response * Run Backend :=
  POST backend (Some entry_fee_request) (shop accepting_gateway).

Definition unrecorded_run : Response * Run Backend :=
  POST backend (Some entry_fee_request)
    (with_insert_fault (shop accepting_gateway)).

Definition unsynced_run : Response * Run Backend :=
  POST backend (Some entry_fee_request)
    (with_registration_fault (shop accepting_gateway)).

Definition declined_run : Response * Run Backend :=
  POST backend (Some donation_request) (shop declining_gateway).

Definition refund_run : Response * Run Backend :=
  PUT backend (Some refund_update) paid_shop.

(** Further examples: a gateway that cannot be reached, a store whose insert
    replies with neither an error nor a row, and an entry-fee request
    without [userId]. *)
Definition unreachable_gateway (args : ChargeArgs.t) : Completion Payment.t :=
  Throw (OtherError "FetchError").

Definition mute_backend : Env Backend :=
  {| Number_toString := integer_toString;
     toLowerCase := ascii_toLowerCase;
     createPayment := fun args b => (gateway b args, b);
     payments_insert :=
       fun row b => ({| data := JNull; error := None |}, b);
     registrations_update := backend_update_registration;
     payments_update := backend_update_payment;
     Date_now_toISOString := fun b => (clock b, b) |}.

Definition anonymous_entry_request : JsValue :=
  JObj [("sourceId", JStr "cnon:card-nonce-ok");
        ("amount", JNum (Finite 500));
        ("idempotencyKey", JStr "key-5");
        ("tournamentId", JStr "t7")].

Definition anonymous_entry_args : ChargeArgs.t :=
  {| ChargeArgs.sourceId := JStr "cnon:card-nonce-ok";
     ChargeArgs.amount := JNum (Finite 500);
     ChargeArgs.currency := "GBP";
     ChargeArgs.idempotencyKey := JStr "key-5";
     ChargeArgs.note := JUndefined;
     ChargeArgs.referenceId := Some "tournament_t7" |}.

Definition anonymous_entry_record : PaymentInsert.t :=
  {| PaymentInsert.user_id := JUndefined;
     PaymentInsert.tournament_id := JStr "t7";
     PaymentInsert.square_payment_id := "sq_pay_1";
     PaymentInsert.amount := JNum (Finite (500 / 100));
     PaymentInsert.currency := "GBP";
     PaymentInsert.status := "completed";
     PaymentInsert.payment_type := "entry_fee";
     PaymentInsert.description := JUndefined;
     PaymentInsert.metadata_square_payment := entry_fee_payment;
     PaymentInsert.metadata_idempotency_key := JStr "key-5" |}.

Definition zero_amount_request : JsValue :=
  JObj [("sourceId", JStr "cnon:card-nonce-ok");
        ("amount", JNum (Finite 0));
        ("idempotencyKey", JStr "key-6")].

Definition anonymous_entry_run : Response * Run Backend :=
  POST backend (Some anonymous_entry_request) (shop accepting_gateway).

Definition unreachable_run : Response * Run Backend :=
  POST backend (Some donation_request) (shop unreachable_gateway).

Definition mute_run : Response * Run Backend :=
  POST mute_backend (Some entry_fee_request) (shop accepting_gateway).

Definition completed_update : JsValue :=
  JObj [("paymentId", JStr "sq_pay_1"); ("status", JStr "COMPLETED")].

Definition entry_fee_registration : RegistrationUpdate.t :=
  {| RegistrationUpdate.payment_status := "completed";
     RegistrationUpdate.payment_id := "sq_pay_1";
     RegistrationUpdate.payment_amount := JNum (Finite (500 / 100)) |}.

(** ** Vocabulary of the properties *)

(** [const { ... } = body] succeeds on everything but [null] and
    [undefined]. *)
Definition destructurable (body : JsValue) : bool :=
  match body with
  | JUndefined | JNull => false
  | _ => true
  end.

(** The value bound to [k] by the destructuring of [body]. *)
Definition member (body : JsValue) (k : string) : JsValue :=
  match get_prop body k with
  | Some v => v
  | None => JUndefined
  end.

(** [v] is a number whose value is a positive integer. *)
Definition PositiveInteger (v : JsValue) : Prop :=
  exists (z : Z) (q : Q), (0 < z)%Z /\ v = JNum (Finite q) /\ q == inject_Z z.

(** A create-payment request that passes both validation steps. *)
Definition valid_request (body : JsValue) : Prop :=
  truthy (member body "sourceId") = true
  /\ truthy (member body "idempotencyKey") = true
  /\ PositiveInteger (member body "amount").


(** ** Case analysis of a run *)

(** Unfolds a handler applied to its arguments into the monad's primitive
    steps. *)
Ltac unfold_run H :=
  unfold POST, PUT, try_catch, POST_body, PUT_body, POST_catch, PUT_catch,
    bind, ret, throw, request_json, prop, template, call_toLowerCase,
    console_error, await_createPayment, await_payments_insert,
    await_registrations_update, await_payments_update, new_Date_toISOString,
    start, log, record_call, with_world in H.

(** Splits on the first test or reply the run [H] is waiting for. *)
Ltac step H :=
  match type of H with
  | context [match ?x with _ => _ end] =>
      lazymatch x with
      | context [match _ with _ => _ end] => fail
      | _ => destruct x eqn:?
      end
  end; cbn -[append] in H.

(** All paths of [H : handler env request w = (response, run)]. *)
Ltac paths H :=
  unfold_run H; cbn -[append] in H; repeat step H;
  injection H as <- <-.

(** Turns the outcome of the handlers' tests into facts about the request's
    members. *)
Ltac tests :=
  repeat match goal with
    | H : (_ || _) = false |- _ => apply orb_false_iff in H; destruct H
    | H : (_ && _) = true |- _ => apply andb_true_iff in H; destruct H
    | H : negb _ = false |- _ => apply negb_false_iff in H
    | H : negb _ = true |- _ => apply negb_true_iff in H
    end.

(** Resolves the hypotheses that a call occurs in the trace of a path. *)
Ltac occurs :=
  repeat match goal with
    | H : In _ (calls _) |- _ => cbn [calls app In] in H
    | H : _ \/ _ |- _ => destruct H
    | H : False |- _ => destruct H
    | H : @eq Call _ _ |- _ => first [discriminate H | inversion H; clear H]
    end; subst.

(** ** Basic facts *)

Lemma integral_inject_Z (q : Q) (z : Z) :
  q == inject_Z z -> Num.integral q = true.
Proof.
  unfold Num.integral, Qeq. destruct q as [n d]. simpl. intros H.
  rewrite Z.mul_1_r in H. subst n.
  rewrite Z.mod_mul by discriminate. reflexivity.
Qed.

Lemma PositiveInteger_checks (v : JsValue) :
  PositiveInteger v ->
  truthy v = true /\ Number_isInteger v = true /\ js_le_zero v = false.
Proof.
  intros (z & q & Hz & -> & Hq). simpl.
  assert (Hpos : 0 < q) by (rewrite Hq; unfold Qlt; simpl; lia).
  repeat split.
  - destruct (Qeq_bool q 0) eqn:E; [|reflexivity].
    apply Qeq_bool_iff in E. rewrite E in Hpos. discriminate.
  - eapply integral_inject_Z; eassumption.
  - destruct (Qle_bool q 0) eqn:E; [|reflexivity].
    apply Qle_bool_iff in E. exfalso. eapply Qlt_not_le; eassumption.
Qed.

Lemma checks_PositiveInteger (v : JsValue) :
  Number_isInteger v = true -> js_le_zero v = false -> PositiveInteger v.
Proof.
  destruct v as [| | |n| | |]; try discriminate.
  destruct n as [q| | |]; try discriminate.
  simpl. unfold Num.integral. destruct q as [n d]. simpl.
  intros Hint Hle.
  apply Z.eqb_eq in Hint.
  exists (n / Zpos d)%Z, (n # d). split; [|split].
  - assert (Hn : (0 < n)%Z).
    { destruct (Z_lt_le_dec 0 n) as [Hlt|Hge]; [exact Hlt|].
      assert (Hq : Qle_bool (n # d) 0 = true).
      { apply Qle_bool_iff. unfold Qle. simpl. lia. }
      congruence. }
    pose proof (Z.div_mod n (Zpos d) ltac:(discriminate)) as Hdm.
    rewrite Hint in Hdm.
    assert (0 < Zpos d * (n / Zpos d))%Z by lia.
    nia.
  - reflexivity.
  - unfold Qeq. simpl.
    pose proof (Z.div_mod n (Zpos d) ltac:(discriminate)) as Hdm.
    rewrite Hint in Hdm. lia.
Qed.

(** [valid_request] is what the two validation steps of [POST] let
    through. *)
Lemma valid_request_passes_validation (body : JsValue) :
  valid_request body <->
  (negb (truthy (member body "sourceId"))
   || negb (truthy (member body "amount"))
   || negb (truthy (member body "idempotencyKey")) = false
   /\ negb (Number_isInteger (member body "amount"))
      || js_le_zero (member body "amount") = false).
Proof.
  split.
  - intros (Hsource & Hkey & Hamount).
    apply PositiveInteger_checks in Hamount.
    destruct Hamount as (Htruthy & Hinteger & Hpositive).
    rewrite Hsource, Hkey, Htruthy, Hinteger, Hpositive. split; reflexivity.
  - intros [Hpresent Hamount]. tests.
    repeat split; try assumption.
    apply checks_PositiveInteger; assumption.
Qed.

(** On the reference backend an update that matches exactly one payment
    record overwrites its [status] and [updated_at] and returns it. *)
Lemma backend_update_payment_overwrites (fields : PaymentUpdate.t)
    (id : JsValue) (b : Backend) (row : JsValue) :
  filter (fun r => key_eqb (column_of r "square_payment_id") id) (payments b)
  = [row] ->
  let updated :=
    set_properties
      [("status", JStr (PaymentUpdate.status fields));
       ("updated_at", JStr (PaymentUpdate.updated_at fields))] row in
  fst (backend_update_payment fields id b)
  = {| data := updated; error := None |}
  /\ payments (snd (backend_update_payment fields id b))
     = map (fun r =>
              if key_eqb (column_of r "square_payment_id") id
              then set_properties
                     [("status", JStr (PaymentUpdate.status fields));
                      ("updated_at", JStr (PaymentUpdate.updated_at fields))]
                     r
              else r) (payments b).
Proof.
  intros Hmatch. unfold backend_update_payment. rewrite Hmatch.
  split; reflexivity.
Qed.

(** Facts on ASCII lower-casing. *)
Lemma lower_ascii_idempotent (c : ascii) :
  lower_ascii (lower_ascii c) = lower_ascii c.
Proof.
  destruct c as [[] [] [] [] [] [] [] []]; reflexivity.
Qed.

Lemma lower_ascii_moves_capitals (c : ascii) :
  (65 <=? nat_of_ascii c)%nat && (nat_of_ascii c <=? 90)%nat = true ->
  lower_ascii c <> c.
Proof.
  destruct c as [[] [] [] [] [] [] [] []]; cbn; intros H;
    try discriminate H; discriminate.
Qed.

Lemma lower_ascii_stays_ascii (c : ascii) :
  (nat_of_ascii c <? 128)%nat = true ->
  (nat_of_ascii (lower_ascii c) <? 128)%nat = true.
Proof.
  destruct c as [[] [] [] [] [] [] [] []]; cbn; intros H;
    try discriminate H; reflexivity.
Qed.

Lemma ascii_toLowerCase_idempotent (s : string) :
  ascii_toLowerCase (ascii_toLowerCase s) = ascii_toLowerCase s.
Proof.
  induction s as [|c s IH]; simpl.
  - reflexivity.
  - rewrite lower_ascii_idempotent, IH. reflexivity.
Qed.

Lemma ascii_toLowerCase_stays_ascii (s : string) :
  ascii_only s = true -> ascii_only (ascii_toLowerCase s) = true.
Proof.
  induction s as [|c s IH]; simpl; [reflexivity|].
  intros H. apply andb_true_iff in H. destruct H as [Hc Hs].
  rewrite (lower_ascii_stays_ascii c Hc), (IH Hs). reflexivity.
Qed.

Lemma ascii_toLowerCase_moves_capitals (s : string) :
  has_ascii_capital s = true -> ascii_toLowerCase s <> s.
Proof.
  induction s as [|c s IH]; simpl; [discriminate|].
  intros H Heq. injection Heq as Hc Hs.
  apply orb_true_iff in H. destruct H as [H|H].
  - exact (lower_ascii_moves_capitals c H Hc).
  - exact (IH H Hs).
Qed.

Lemma ascii_toLowerCase_nonempty (s : string) :
  s <> "" -> ascii_toLowerCase s <> "".
Proof.
  destruct s; [congruence|discriminate].
Qed.

(** Facts on the rows of the reference backend. *)
Lemma lookup_set_property_same (k : string) (v : JsValue)
    (ps : list (string * JsValue)) :
  lookup k (set_property k v ps) = v.
Proof.
  induction ps as [|[k' v'] ps IH]; simpl.
  - rewrite String.eqb_refl. reflexivity.
  - destruct (String.eqb k k') eqn:E; simpl.
    + rewrite String.eqb_refl. reflexivity.
    + rewrite E. exact IH.
Qed.

Lemma lookup_set_property_other (k k' : string) (v : JsValue)
    (ps : list (string * JsValue)) :
  k <> k' -> lookup k (set_property k' v ps) = lookup k ps.
Proof.
  intros Hk. apply String.eqb_neq in Hk.
  induction ps as [|[k2 v2] ps IH]; simpl.
  - rewrite Hk. reflexivity.
  - destruct (String.eqb k' k2) eqn:E; simpl.
    + apply String.eqb_eq in E. subst k2. rewrite Hk. reflexivity.
    + destruct (String.eqb k k2); [reflexivity|exact IH].
Qed.

(** ** Validation *)

(** C4, amended.  A create-payment request whose [sourceId], [amount] or
    [idempotencyKey] is missing (falsy), or whose amount is not an integer or
    is a number that is zero or negative, is answered with [success: false];
    neither the gateway nor the store is called and the world is left as it
    was.  The status is 400 for every body but [null], whose members cannot
    be read: there it is 500. *)
Theorem POST_invalid_request_is_rejected {W : Type} (env : Env W)
    (body : JsValue) (w : W) :
  truthy (member body "sourceId") = false
  \/ truthy (member body "amount") = false
  \/ truthy (member body "idempotencyKey") = false
  \/ Number_isInteger (member body "amount") = false
  \/ (exists q : Q, member body "amount" = JNum (Finite q) /\ q <= 0) ->
  field (fst (POST env (Some body) w)) "success" = JBool false
  /\ calls (snd (POST env (Some body) w)) = []
  /\ world (snd (POST env (Some body) w)) = w
  /\ (destructurable body = true ->
      http_status (fst (POST env (Some body) w)) = 400%Z)
  /\ (destructurable body = false ->
      http_status (fst (POST env (Some body) w)) = 500%Z).
Proof.
  intros Hbad.
  assert (Hrejected :
    negb (truthy (member body "sourceId"))
    || negb (truthy (member body "amount"))
    || negb (truthy (member body "idempotencyKey")) = false ->
    negb (Number_isInteger (member body "amount"))
    || js_le_zero (member body "amount") = true).
  { intros H. tests.
    destruct Hbad as [Hs|[Ha|[Hk|[Hi|(q & Hq & Hle)]]]]; try congruence.
    - rewrite Hi. reflexivity.
    - rewrite Hq. simpl. apply Qle_bool_iff in Hle. rewrite Hle.
      apply orb_true_r. }
  clear Hbad.
  destruct (POST env (Some body) w) as [response run] eqn:E.
  destruct body; unfold member in Hrejected; cbn in Hrejected.
  all: paths E; cbn;
    try (repeat split; try reflexivity; intros; discriminate).
  all: exfalso; tests;
    match goal with
    | H : _ -> _ |- _ => specialize (H eq_refl)
    end;
    congruence.
Qed.

(** ** The charge and its record *)


(** C2. When the gateway has charged and the insert into [payments] has
    failed, the response is 200, not a failure: [success: true], the
    gateway's payment id and a [warning] member. *)
Theorem POST_insert_failure_is_a_warning {W : Type} (env : Env W)
    (body : JsValue) (w : W) (response : Response) (run : Run W)
    (args : ChargeArgs.t) (payment : Payment.t)
    (row : PaymentInsert.t) (stored : JsValue) (dbError : string) :
  POST env (Some body) w = (response, run) ->
  In (CallCreatePayment args (Normal payment)) (calls run) ->
  In (CallInsertPayment row {| data := stored; error := Some dbError |})
     (calls run) ->
  http_status response = 200%Z
  /\ field response "success" = JBool true
  /\ field response "paymentId" = JStr (Payment.id payment)
  /\ field response "warning"
     = JStr "Payment processed but record creation failed"
  /\ field response "error" = JUndefined.
Proof.
  intros E Hcharge Hinsert.
  destruct body; paths E; occurs; cbn in *; try discriminate.
  all: repeat split.
Qed.

(** C3. When the gateway has raised its own error with message [M], the
    response is 400 with [success: false] and [error] equal to [M]; the
    gateway call is the only call of the run, so nothing is written to the
    store. *)
Theorem POST_gateway_rejection {W : Type} (env : Env W) (body : JsValue)
    (w : W) (response : Response) (run : Run W)
    (args : ChargeArgs.t) (M : string) :
  POST env (Some body) w = (response, run) ->
  In (CallCreatePayment args (Throw (SquarePaymentError M))) (calls run) ->
  http_status response = 400%Z
  /\ field response "success" = JBool false
  /\ field response "error" = JStr M
  /\ calls run = [CallCreatePayment args (Throw (SquarePaymentError M))]
  /\ filter is_store_call (calls run) = [].
Proof.
  intros E Hcharge.
  destruct body; paths E; occurs; cbn in *; try discriminate.
  all: repeat split.
Qed.

(** C8. When the gateway has charged and the insert into [payments] has
    failed, the run consists of these two calls: [tournament_registrations]
    is not updated, whatever [tournamentId] and [userId] are, and the world
    is the one the failed insert left. *)
Theorem POST_insert_failure_skips_registration {W : Type} (env : Env W)
    (body : JsValue) (w : W) (response : Response) (run : Run W)
    (args : ChargeArgs.t) (payment : Payment.t)
    (row : PaymentInsert.t) (stored : JsValue) (dbError : string) :
  POST env (Some body) w = (response, run) ->
  In (CallCreatePayment args (Normal payment)) (calls run) ->
  In (CallInsertPayment row {| data := stored; error := Some dbError |})
     (calls run) ->
  calls run
  = [CallCreatePayment args (Normal payment);
     CallInsertPayment row {| data := stored; error := Some dbError |}]
  /\ filter is_registration_update (calls run) = []
  /\ world run
     = snd (payments_insert env row (snd (createPayment env args w)))
  /\ response = record_creation_failed payment.
Proof.
  intros E Hcharge Hinsert.
  destruct body; paths E; occurs; cbn in *; try discriminate.
  all: repeat split.
  all: repeat (match goal with
               | H : _ = (_, _) |- _ => rewrite H
               end; cbn [snd]); reflexivity.
Qed.



(** C7, amended.  For a request that passes validation and whose
    [tournamentId] is falsy, or is truthy and is converted to a string by
    the template literal, the first call of the run, and its only gateway
    call, is [createPayment] with the request's [sourceId], [amount] and
    [idempotencyKey] as they came, the currency ["GBP"], [description] as the
    note, and as reference ["tournament_"] followed by the string of
    [tournamentId], or no reference when [tournamentId] is falsy.  When the
    conversion of a truthy [tournamentId] throws, the run makes no call and
    the answer is the generic 500. *)
Theorem POST_charge_arguments {W : Type} (env : Env W) (body : JsValue)
    (w : W) :
  valid_request body ->
  (forall tournament : option string,
     match tournament with
     | Some s =>
         truthy (member body "tournamentId") = true
         /\ ToString (Number_toString env) (member body "tournamentId")
            = Some s
     | None => truthy (member body "tournamentId") = false
     end ->
     let args :=
       {| ChargeArgs.sourceId := member body "sourceId";
          ChargeArgs.amount := member body "amount";
          ChargeArgs.currency := "GBP";
          ChargeArgs.idempotencyKey := member body "idempotencyKey";
          ChargeArgs.note := member body "description";
          ChargeArgs.referenceId :=
            match tournament with
            | Some s => Some ("tournament_" ++ s)
            | None => None
            end |} in
     let charge := CallCreatePayment args (fst (createPayment env args w)) in
     hd_error (calls (snd (POST env (Some body) w))) = Some charge
     /\ filter is_gateway_call (calls (snd (POST env (Some body) w)))
        = [charge])
  /\ (truthy (member body "tournamentId") = true ->
      ToString (Number_toString env) (member body "tournamentId") = None ->
      calls (snd (POST env (Some body) w)) = []
      /\ fst (POST env (Some body) w) = processing_failed).
Proof.
  intros (Hsource & Hkey & Hamount).
  apply PositiveInteger_checks in Hamount.
  destruct Hamount as (Htruthy & Hinteger & Hpositive).
  destruct (POST env (Some body) w) as [response run] eqn:E.
  destruct body; try discriminate Hsource.
  unfold member in *; cbn [get_prop] in *.
  split.
  - intros tournament Htournament.
    destruct tournament as [s|]; [destruct Htournament as [Ht Hs]|].
    all: paths E;
      try match goal with
        | H : (_ || _) = true |- _ =>
            rewrite ?Hsource, ?Htruthy, ?Hkey, ?Hinteger, ?Hpositive in H;
            discriminate H
        end;
      try congruence.
    all: repeat match goal with
           | H : Some _ = Some _ |- _ => injection H as ->
           end.
    all: cbn -[append];
      try match goal with
      | H : createPayment _ _ _ = _ |- _ => rewrite H
      end; split; reflexivity.
  - intros Ht Hthrows.
    paths E;
      try match goal with
        | H : (_ || _) = true |- _ =>
            rewrite ?Hsource, ?Htruthy, ?Hkey, ?Hinteger, ?Hpositive in H;
            discriminate H
        end;
      try congruence.
    split; reflexivity.
Qed.

(** C10. On full success the [status] member of the response is the
    gateway's status string as it came, and the status of the payment record
    is what [toLowerCase] makes of that string.  For a status of ASCII
    characters this is the string with [A]-[Z] replaced by [a]-[z], so that
    the two differ as soon as the gateway's string has a capital letter; they
    do differ in the run of the entry fee, where the gateway says
    ["COMPLETED"]. *)
Theorem POST_status_casing {W : Type} (env : Env W) (body : JsValue) (w : W)
    (response : Response) (run : Run W)
    (args : ChargeArgs.t) (payment : Payment.t)
    (row : PaymentInsert.t) (stored id : JsValue) :
  POST env (Some body) w = (response, run) ->
  In (CallCreatePayment args (Normal payment)) (calls run) ->
  In (CallInsertPayment row {| data := stored; error := None |})
     (calls run) ->
  get_prop stored "id" = Some id ->
  field response "status" = JStr (Payment.status payment)
  /\ PaymentInsert.status row = toLowerCase env (Payment.status payment)
  /\ (lowercases_ascii (toLowerCase env) ->
      ascii_only (Payment.status payment) = true ->
      PaymentInsert.status row = ascii_toLowerCase (Payment.status payment)
      /\ (has_ascii_capital (Payment.status payment) = true ->
          field response "status" <> JStr (PaymentInsert.status row)))
  /\ (exists (record : PaymentInsert.t) (reply : StoreReply),
        In (CallInsertPayment record reply) (calls (snd entry_fee_run))
        /\ field (fst entry_fee_run) "status" = JStr "COMPLETED"
        /\ PaymentInsert.status record = "completed").
Proof.
  intros E Hcharge Hinsert Hid.
  assert (Hrow : field response "status" = JStr (Payment.status payment)
                 /\ PaymentInsert.status row
                    = toLowerCase env (Payment.status payment)).
  { destruct body; paths E; occurs; cbn in *; try discriminate;
      try congruence.
    all: split; reflexivity. }
  destruct Hrow as [Hresponse Hrow].
  split; [exact Hresponse|]. split; [exact Hrow|]. split.
  - intros Hruntime Hascii.
    rewrite Hrow, Hresponse, (Hruntime _ Hascii).
    split; [reflexivity|].
    intros Hcapital Hsame. injection Hsame as Hsame.
    exact (ascii_toLowerCase_moves_capitals _ Hcapital (eq_sym Hsame)).
  - eexists. eexists. split; [simpl; right; left; reflexivity|].
    split; reflexivity.
Qed.

(** ** The status update *)

(** C5, amended.  For an update-status request whose body is not [null]:
    if [paymentId] or [status] is missing (falsy) the answer is 400, without
    any call.  If [paymentId] is present and [status] is a non-empty string,
    the run is one store call and no gateway call: the update of [payments],
    on the record whose [square_payment_id] is [paymentId], of [status] to
    the lower-cased string and of [updated_at] to the clock's reading; the
    world after the run is the one this update leaves; the response is 200
    with the record the store returns, or 500 with a generic message when the
    store replies with an error.  On the payments table, when one record
    matches [paymentId], that record has its [status] overwritten with the
    lower-cased string and its [updated_at] with the clock's reading, its
    other columns and the other records stay, and the 200 carries the updated
    record; when no record matches, the answer is the 500 and the table is
    unchanged. *)
Theorem PUT_status_update {W : Type} (env : Env W) (body : JsValue) (w : W)
    (response : Response) (run : Run W) :
  PUT env (Some body) w = (response, run) ->
  destructurable body = true ->
  (truthy (member body "paymentId") = false
   \/ truthy (member body "status") = false ->
   http_status response = 400%Z
   /\ field response "success" = JBool false
   /\ calls run = []
   /\ world run = w)
  /\ (forall s : string,
        truthy (member body "paymentId") = true ->
        member body "status" = JStr s ->
        s <> "" ->
        let fields :=
          {| PaymentUpdate.status := toLowerCase env s;
             PaymentUpdate.updated_at := fst (Date_now_toISOString env w) |} in
        let update :=
          payments_update env fields (member body "paymentId")
            (snd (Date_now_toISOString env w)) in
        calls run
        = [CallUpdatePayment fields (member body "paymentId") (fst update)]
        /\ world run = snd update
        /\ filter is_gateway_call (calls run) = []
        /\ (error (fst update) = None ->
            http_status response = 200%Z
            /\ field response "success" = JBool true
            /\ field response "payment" = data (fst update))
        /\ (error (fst update) <> None ->
            http_status response = 500%Z
            /\ field response "success" = JBool false
            /\ field response "error"
               = JStr "Failed to update payment status"))
  /\ (forall (lower : string -> string) (b : Backend) (s : string),
        truthy (member body "paymentId") = true ->
        member body "status" = JStr s ->
        s <> "" ->
        let matching (r : JsValue) : bool :=
          key_eqb (column_of r "square_payment_id")
            (member body "paymentId") in
        (forall record : JsValue,
           filter matching (payments b) = [record] ->
           exists updated : JsValue,
             fst (PUT (backend_with lower) (Some body) b)
             = payment_updated updated
             /\ http_status (payment_updated updated) = 200%Z
             /\ column_of updated "status" = JStr (lower s)
             /\ column_of updated "updated_at" = JStr (clock b)
             /\ (forall k : string,
                   k <> "status" -> k <> "updated_at" ->
                   column_of updated k = column_of record k)
             /\ payments (world (snd (PUT (backend_with lower) (Some body)
                                        b)))
                = map (fun r => if matching r then updated else r)
                    (payments b))
        /\ (filter matching (payments b) = [] ->
            fst (PUT (backend_with lower) (Some body) b)
            = status_update_failed
            /\ world (snd (PUT (backend_with lower) (Some body) b)) = b)).
Proof.
  intros E Hbody.
  split; [|split].
  - intros Hmissing.
    destruct body; try discriminate Hbody; unfold member in *;
      cbn [get_prop] in *.
    all: paths E; tests; cbn in *; try discriminate;
      try (repeat split; reflexivity).
    all: destruct Hmissing; congruence.
  - intros s Hpayment Hstatus Hnonempty.
    destruct body; try discriminate Hpayment; unfold member in *;
      cbn [get_prop] in *.
    paths E; tests; cbn in *; try discriminate; try congruence.
    all: try match goal with
           | H : (_ || _) = true |- _ =>
               rewrite Hpayment, Hstatus in H; cbn in H;
               destruct (String.eqb_spec s ""); [congruence|discriminate H]
           end.
    all: injection Hstatus as ->.
    all: repeat match goal with
           | H : payments_update _ _ _ _ = _ |- _ => rewrite H
           end; cbn.
    all: repeat split; congruence.
  - intros lower b s Hpayment Hstatus Hnonempty matching.
    assert (Hpresent :
      negb (truthy (member body "paymentId"))
      || negb (truthy (member body "status")) = false).
    { rewrite Hpayment, Hstatus. cbn.
      destruct (String.eqb_spec s ""); [congruence|reflexivity]. }
    destruct body; try discriminate Hpayment; unfold member in *;
      cbn [get_prop] in *.
    split.
    + intros record Hmatch.
      assert (Hobject : exists ps, record = JObj ps).
      { assert (Hin : In record (filter matching (payments b)))
          by (rewrite Hmatch; left; reflexivity).
        apply filter_In in Hin. destruct Hin as [_ Hkey].
        unfold matching in Hkey.
        destruct record; try discriminate Hkey. eexists; reflexivity. }
      destruct Hobject as [ps ->].
      destruct (backend_update_payment_overwrites
                  {| PaymentUpdate.status := lower s;
                     PaymentUpdate.updated_at := clock b |}
                  (lookup "paymentId" properties) b (JObj ps) Hmatch)
        as [Hreply Htable].
      cbn [PaymentUpdate.status PaymentUpdate.updated_at] in Hreply, Htable.
      exists (set_properties
                [("status", JStr (lower s)); ("updated_at", JStr (clock b))]
                (JObj ps)).
      destruct (PUT (backend_with lower) (Some (JObj properties)) b)
        as [response' run'] eqn:E'.
      unfold_run E'. cbn -[append backend_update_payment] in E'.
      rewrite Hpresent, Hstatus in E'.
      cbn -[append backend_update_payment] in E'.
      destruct (backend_update_payment _ _ b) as [reply b'] eqn:Hupdate.
      cbn [fst snd] in Hreply, Htable. subst reply.
      cbn -[append] in E'. injection E' as <- <-.
      cbn [fst snd world].
      split; [reflexivity|]. split; [reflexivity|].
      split; [|split; [|split]].
      * cbn. rewrite lookup_set_property_other by discriminate.
        apply lookup_set_property_same.
      * cbn. apply lookup_set_property_same.
      * intros k Hk1 Hk2. cbn.
        rewrite !lookup_set_property_other by assumption. reflexivity.
      * rewrite Htable. apply map_ext_in. intros r Hr.
        fold (matching r).
        destruct (matching r) eqn:Hmr; [|reflexivity].
        assert (Hin : In r (filter matching (payments b)))
          by (apply filter_In; split; assumption).
        rewrite Hmatch in Hin. destruct Hin as [<-|[]]. reflexivity.
    + intros Hmatch.
      destruct (PUT (backend_with lower) (Some (JObj properties)) b)
        as [response' run'] eqn:E'.
      unfold_run E'. cbn -[append backend_update_payment] in E'.
      rewrite Hpresent, Hstatus in E'.
      cbn -[append backend_update_payment] in E'.
      unfold backend_update_payment in E'.
      cbn [PaymentUpdate.status PaymentUpdate.updated_at] in E'.
      fold matching in E'. rewrite Hmatch in E'.
      cbn -[append] in E'. injection E' as <- <-.
      split; reflexivity.
Qed.

(** ** Requests that make a handler throw *)

(** C9, amended.  A body that is not JSON, or that is [null], makes [POST]
    answer 500 with ["Payment processing failed"] and [PUT] answer 500 with
    ["Payment update failed"], without any call.  So does, for [PUT], a
    request whose [paymentId] is present and whose [status] is present
    (truthy) but not a string. *)
Theorem thrown_errors_are_caught {W : Type} (env : Env W) (body : JsValue)
    (w : W) :
  (http_status (fst (POST env None w)) = 500%Z
   /\ field (fst (POST env None w)) "success" = JBool false
   /\ field (fst (POST env None w)) "error"
      = JStr "Payment processing failed"
   /\ calls (snd (POST env None w)) = [])
  /\ (http_status (fst (PUT env None w)) = 500%Z
      /\ field (fst (PUT env None w)) "success" = JBool false
      /\ field (fst (PUT env None w)) "error" = JStr "Payment update failed"
      /\ calls (snd (PUT env None w)) = [])
  /\ (destructurable body = false ->
      fst (POST env (Some body) w) = processing_failed
      /\ calls (snd (POST env (Some body) w)) = []
      /\ fst (PUT env (Some body) w) = update_failed
      /\ calls (snd (PUT env (Some body) w)) = [])
  /\ (truthy (member body "paymentId") = true ->
      truthy (member body "status") = true ->
      (forall s : string, member body "status" <> JStr s) ->
      http_status (fst (PUT env (Some body) w)) = 500%Z
      /\ field (fst (PUT env (Some body) w)) "success" = JBool false
      /\ field (fst (PUT env (Some body) w)) "error"
         = JStr "Payment update failed"
      /\ calls (snd (PUT env (Some body) w)) = []).
Proof.
  split; [repeat split|split; [repeat split|split]].
  - intros Hbody. destruct body; try discriminate Hbody; repeat split.
  - intros Hid Hstatus Hstring.
    destruct (PUT env (Some body) w) as [response run] eqn:E.
    destruct body; try discriminate Hid; unfold member in *;
      cbn [get_prop] in *.
    paths E; tests; cbn in *; try discriminate; try congruence;
      try (repeat split; reflexivity).
    all: try (exfalso; eapply Hstring; reflexivity).
    rewrite Hid, Hstatus in *. discriminate.
Qed.

(** ** Where the code departs from a stated property *)

(** C4 as stated fails: the body [null] has no [sourceId], [amount] or
    [idempotencyKey]; reading them throws, and the answer is 500, not 400
    (still without any call). *)
Lemma POST_null_body_counterexample :
  truthy (member JNull "sourceId") = false
  /\ truthy (member JNull "amount") = false
  /\ truthy (member JNull "idempotencyKey") = false
  /\ fst (POST backend (Some JNull) (shop accepting_gateway))
     = processing_failed
  /\ http_status processing_failed = 500%Z
  /\ calls (snd (POST backend (Some JNull) (shop accepting_gateway))) = [].
Proof. repeat split. Qed.


(** C5 as stated fails.  A [null] body has no [paymentId] and is answered
    with 500, not 400.  With [paymentId] and [status] both present and a
    matching payment record in the store, a [status] that is not a string
    makes the handler throw; the response is 500, the store is not called
    and the record keeps its status. *)
Lemma PUT_numeric_status_counterexample :
  truthy (member JNull "paymentId") = false
  /\ http_status (fst (PUT backend (Some JNull) paid_shop)) = 500%Z
  /\ truthy (member numeric_status_update "paymentId") = true
  /\ truthy (member numeric_status_update "status") = true
  /\ List.length (filter
       (fun row => key_eqb (column_of row "square_payment_id")
                     (member numeric_status_update "paymentId"))
       (payments paid_shop)) = 1%nat
  /\ http_status (fst (PUT backend (Some numeric_status_update) paid_shop))
     = 500%Z
  /\ calls (snd (PUT backend (Some numeric_status_update) paid_shop)) = []
  /\ payments (world (snd (PUT backend (Some numeric_status_update)
                             paid_shop)))
     = payments paid_shop.
Proof. repeat split. Qed.

(** C7 as stated fails: a request can pass both validation steps and the
    gateway still not be called.  An object with an own [toString] member as
    [tournamentId] is truthy and cannot be converted by the template literal;
    the TypeError is answered with 500 before any call. *)
Lemma POST_unprintable_tournament_counterexample :
  valid_request unprintable_tournament_request
  /\ truthy (member unprintable_tournament_request "tournamentId") = true
  /\ calls (snd (POST backend (Some unprintable_tournament_request)
                   (shop accepting_gateway))) = []
  /\ fst (POST backend (Some unprintable_tournament_request)
            (shop accepting_gateway)) = processing_failed.
Proof.
  repeat split. exists 500%Z, 500. repeat split.
Qed.

(** C9 as stated fails: a [status] without a lower-casing operation does not
    always lead to 500.  The number 5 as [status] of a request without
    [paymentId], and [false] as [status], are answered by the validation
    step with 400. *)
Lemma PUT_validation_first_counterexample :
  member numeric_status_without_id "status" = JNum (Finite 5)
  /\ fst (PUT backend (Some numeric_status_without_id) paid_shop)
     = missing_id_or_status
  /\ member false_status_update "status" = JBool false
  /\ fst (PUT backend (Some false_status_update) paid_shop)
     = missing_id_or_status
  /\ http_status missing_id_or_status = 400%Z.
Proof. repeat split. Qed.

(** ** The properties at work on the reference backend *)

(** A request with amount -5 is turned away with 400 before any call; a
    [null] body, with 500. *)
Lemma POST_invalid_request_is_rejected_witness :
  member negative_amount_request "amount" = JNum (Finite (-5))
  /\ http_status (fst (POST backend (Some negative_amount_request)
                         (shop accepting_gateway))) = 400%Z
  /\ calls (snd (POST backend (Some negative_amount_request)
                   (shop accepting_gateway))) = []
  /\ truthy (member JNull "sourceId") = false
  /\ http_status (fst (POST backend (Some JNull) (shop accepting_gateway)))
     = 500%Z
  /\ calls (snd (POST backend (Some JNull) (shop accepting_gateway))) = [].
Proof.
  split; [reflexivity|].
  destruct (POST_invalid_request_is_rejected backend negative_amount_request
              (shop accepting_gateway))
    as (_ & Hcalls & _ & Hstatus & _).
  - right; right; right; right. exists (-5). split; [reflexivity|].
    unfold Qle. simpl. lia.
  - destruct (POST_invalid_request_is_rejected backend JNull
                (shop accepting_gateway))
      as (_ & Hcalls' & _ & _ & Hstatus').
    + left. reflexivity.
    + split; [exact (Hstatus eq_refl)|]. split; [exact Hcalls|].
      split; [reflexivity|]. split; [exact (Hstatus' eq_refl)|exact Hcalls'].
Defined.


(** The same request against a store that refuses the insert. *)
Lemma POST_insert_failure_is_a_warning_witness :
  http_status (fst unrecorded_run) = 200%Z
  /\ field (fst unrecorded_run) "success" = JBool true
  /\ field (fst unrecorded_run) "paymentId" = JStr "sq_pay_1"
  /\ field (fst unrecorded_run) "warning"
     = JStr "Payment processed but record creation failed"
  /\ field (fst unrecorded_run) "error" = JUndefined.
Proof.
  apply (POST_insert_failure_is_a_warning backend entry_fee_request
           (with_insert_fault (shop accepting_gateway))
           (fst unrecorded_run) (snd unrecorded_run)
           entry_fee_args entry_fee_payment entry_fee_record
           JNull "relation payments is not reachable").
  - reflexivity.
  - simpl. left. reflexivity.
  - simpl. right. left. reflexivity.
Defined.

(** A declined card: the gateway's message goes to the caller and the store
    is not touched. *)
Lemma POST_gateway_rejection_witness :
  http_status (fst declined_run) = 400%Z
  /\ field (fst declined_run) "success" = JBool false
  /\ field (fst declined_run) "error" = JStr "Card declined"
  /\ calls (snd declined_run)
     = [CallCreatePayment donation_args
          (Throw (SquarePaymentError "Card declined"))]
  /\ filter is_store_call (calls (snd declined_run)) = [].
Proof.
  apply (POST_gateway_rejection backend donation_request
           (shop declining_gateway) (fst declined_run) (snd declined_run)
           donation_args "Card declined").
  - reflexivity.
  - simpl. left. reflexivity.
Defined.

(** With the insert refused, the registration of user [u1] for tournament
    [t7] stays as it was. *)
Lemma POST_insert_failure_skips_registration_witness :
  truthy (member entry_fee_request "tournamentId") = true
  /\ truthy (member entry_fee_request "userId") = true
  /\ filter is_registration_update (calls (snd unrecorded_run)) = []
  /\ tournament_registrations (world (snd unrecorded_run))
     = [registration_row "t7" "u1"].
Proof.
  split; [reflexivity|split; [reflexivity|]].
  destruct (POST_insert_failure_skips_registration backend entry_fee_request
              (with_insert_fault (shop accepting_gateway))
              (fst unrecorded_run) (snd unrecorded_run)
              entry_fee_args entry_fee_payment entry_fee_record
              JNull "relation payments is not reachable")
    as (_ & Hskipped & Hworld & _).
  - reflexivity.
  - simpl. left. reflexivity.
  - simpl. right. left. reflexivity.
  - split; [exact Hskipped|]. rewrite Hworld. reflexivity.
Defined.


(** The entry-fee request reaches the gateway with the reference
    ["tournament_t7"]; the request with the unprintable tournament does not
    reach it. *)
Lemma POST_charge_arguments_witness :
  valid_request entry_fee_request
  /\ hd_error (calls (snd entry_fee_run))
     = Some (CallCreatePayment entry_fee_args (Normal entry_fee_payment))
  /\ filter is_gateway_call (calls (snd entry_fee_run))
     = [CallCreatePayment entry_fee_args (Normal entry_fee_payment)]
  /\ valid_request unprintable_tournament_request
  /\ calls (snd (POST backend (Some unprintable_tournament_request)
                   (shop accepting_gateway))) = [].
Proof.
  assert (Hvalid : valid_request entry_fee_request).
  { split; [reflexivity|split; [reflexivity|]].
    exists 500%Z, 500. split; [lia|split; reflexivity]. }
  assert (Hvalid' : valid_request unprintable_tournament_request).
  { split; [reflexivity|split; [reflexivity|]].
    exists 500%Z, 500. split; [lia|split; reflexivity]. }
  destruct (POST_charge_arguments backend entry_fee_request
              (shop accepting_gateway) Hvalid) as (Hcharge & _).
  destruct (POST_charge_arguments backend unprintable_tournament_request
              (shop accepting_gateway) Hvalid') as (_ & Hthrows).
  destruct (Hcharge (Some "t7") (conj eq_refl eq_refl)) as (Hfirst & Honly).
  destruct (Hthrows eq_refl eq_refl) as (Hnone & _).
  split; [exact Hvalid|]. split; [exact Hfirst|]. split; [exact Honly|].
  split; [exact Hvalid'|exact Hnone].
Defined.

(** The gateway says ["COMPLETED"], the record of the run says
    ["completed"]. *)
Lemma POST_status_casing_witness :
  lowercases_ascii (toLowerCase backend)
  /\ exists (row : PaymentInsert.t),
       In (CallInsertPayment row
             {| data := payment_row 1 row; error := None |})
          (calls (snd entry_fee_run))
       /\ field (fst entry_fee_run) "status" = JStr "COMPLETED"
       /\ PaymentInsert.status row = "completed"
       /\ field (fst entry_fee_run) "status"
          <> JStr (PaymentInsert.status row).
Proof.
  assert (Hruntime : lowercases_ascii (toLowerCase backend))
    by (intros s _; reflexivity).
  split; [exact Hruntime|].
  exists entry_fee_record.
  assert (Hinsert :
    In (CallInsertPayment entry_fee_record
          {| data := payment_row 1 entry_fee_record; error := None |})
       (calls (snd entry_fee_run)))
    by (simpl; right; left; reflexivity).
  split; [exact Hinsert|].
  destruct (POST_status_casing backend entry_fee_request
              (shop accepting_gateway) (fst entry_fee_run) (snd entry_fee_run)
              entry_fee_args entry_fee_payment entry_fee_record
              (payment_row 1 entry_fee_record) (JNum (Finite 1)))
    as (Hresponse & _ & Hascii & _).
  - reflexivity.
  - simpl. left. reflexivity.
  - exact Hinsert.
  - reflexivity.
  - destruct (Hascii Hruntime eq_refl) as (Hrecord & Hdiffer).
    split; [exact Hresponse|]. split; [exact Hrecord|].
    apply Hdiffer. reflexivity.
Defined.

(** Marking the recorded payment as refunded: the one record of the table
    goes from ["completed"] to ["refunded"], the clock's reading is stored
    and the response carries the updated record. *)
Lemma PUT_status_update_witness :
  map (fun row => column_of row "status") (payments paid_shop)
  = [JStr "completed"]
  /\ exists updated : JsValue,
       fst refund_run = payment_updated updated
       /\ http_status (payment_updated updated) = 200%Z
       /\ column_of updated "status" = JStr "refunded"
       /\ column_of updated "updated_at" = JStr "2024-05-01T10:00:00.000Z"
       /\ column_of updated "square_payment_id" = JStr "sq_pay_1"
       /\ payments (world (snd refund_run)) = [updated]
       /\ filter is_gateway_call (calls (snd refund_run)) = [].
Proof.
  split; [reflexivity|].
  destruct (PUT_status_update backend refund_update paid_shop
              (fst refund_run) (snd refund_run) eq_refl eq_refl)
    as (_ & Hcall & Htable).
  destruct (Hcall "REFUNDED" eq_refl eq_refl ltac:(discriminate))
    as (_ & _ & Hgateway & _).
  destruct (Htable ascii_toLowerCase paid_shop "REFUNDED" eq_refl eq_refl
              ltac:(discriminate)) as (Hupdated & _).
  destruct (Hupdated (payment_row 1 entry_fee_record) eq_refl)
    as (updated & Hresponse & Hstatus & Hcolumn & Hclock & Hother & Hrows).
  exists updated.
  split; [exact Hresponse|]. split; [exact Hstatus|].
  split; [exact Hcolumn|]. split; [exact Hclock|].
  split; [rewrite (Hother "square_payment_id") by discriminate; reflexivity|].
  split; [exact Hrows|exact Hgateway].
Defined.

(** No body, a [null] body, and the number 5 as status of a recorded
    payment. *)
Lemma thrown_errors_are_caught_witness :
  fst (POST backend None paid_shop) = processing_failed
  /\ fst (PUT backend None paid_shop) = update_failed
  /\ fst (POST backend (Some JNull) paid_shop) = processing_failed
  /\ truthy (member numeric_status_update "paymentId") = true
  /\ truthy (member numeric_status_update "status") = true
  /\ http_status (fst (PUT backend (Some numeric_status_update) paid_shop))
     = 500%Z
  /\ field (fst (PUT backend (Some numeric_status_update) paid_shop)) "error"
     = JStr "Payment update failed"
  /\ calls (snd (PUT backend (Some numeric_status_update) paid_shop)) = [].
Proof.
  destruct (thrown_errors_are_caught backend numeric_status_update paid_shop)
    as (_ & _ & _ & Hstatus).
  destruct (thrown_errors_are_caught backend JNull paid_shop)
    as (_ & _ & Hnull & _).
  destruct (Hnull eq_refl) as (Hpost & _).
  destruct Hstatus as (H500 & _ & Herror & Hcalls).
  - reflexivity.
  - reflexivity.
  - intros s. discriminate.
  - repeat split; assumption.
Defined.

(** ** Further properties of the handlers *)

(** X1. The two validation steps answer with their own messages, and the
    presence test comes first: a request with a falsy [sourceId], [amount]
    or [idempotencyKey] gets ["Missing required payment information"], also
    when its amount is 0; a request with the three present whose amount is
    not a positive integer gets ["Invalid payment amount"]. *)
Theorem POST_validation_messages {W : Type} (env : Env W) (body : JsValue)
    (w : W) :
  destructurable body = true ->
  (truthy (member body "sourceId") = false
   \/ truthy (member body "amount") = false
   \/ truthy (member body "idempotencyKey") = false ->
   fst (POST env (Some body) w) = missing_information
   /\ field (fst (POST env (Some body) w)) "error"
      = JStr "Missing required payment information")
  /\ (truthy (member body "sourceId") = true ->
      truthy (member body "amount") = true ->
      truthy (member body "idempotencyKey") = true ->
      ~ PositiveInteger (member body "amount") ->
      fst (POST env (Some body) w) = invalid_amount
      /\ field (fst (POST env (Some body) w)) "error"
         = JStr "Invalid payment amount").
Proof.
  intros Hbody.
  destruct (POST env (Some body) w) as [response run] eqn:E.
  destruct body; try discriminate Hbody; unfold member; cbn [get_prop fst].
  all: split;
    [intros Hmissing|intros Hsource Hamount Hkey Hinvalid].
  all: paths E; tests; cbn in *; try (split; reflexivity);
    try discriminate; try congruence.
  all: try (destruct Hmissing as [Hm|[Hm|Hm]]; congruence).
  all: try match goal with
         | H : (_ || _) = true |- _ =>
             rewrite ?Hsource, ?Hamount, ?Hkey in H; discriminate H
         end.
  all: exfalso; apply Hinvalid; apply checks_PositiveInteger; assumption.
Qed.

(** X2. An error of the gateway that is not its own error class is answered
    with 500 and the generic message ["Payment processing failed"], whatever
    the error; the failed charge is the only call of the run. *)
Theorem POST_unexpected_gateway_error {W : Type} (env : Env W)
    (body : JsValue) (w : W) (response : Response) (run : Run W)
    (args : ChargeArgs.t) (name : string) :
  POST env (Some body) w = (response, run) ->
  In (CallCreatePayment args (Throw (OtherError name))) (calls run) ->
  http_status response = 500%Z
  /\ field response "success" = JBool false
  /\ field response "error" = JStr "Payment processing failed"
  /\ calls run = [CallCreatePayment args (Throw (OtherError name))]
  /\ console run = ["Payment processing error:"].
Proof.
  intros E Hcharge.
  destruct body; paths E; occurs; cbn in *; try discriminate.
  all: repeat split.
Qed.

(** X3. The payment record mirrors the charge it follows: it carries the
    gateway's payment id and currency and the gateway's answer as metadata,
    the idempotency key and the description that went to the gateway, the
    hundredth of the amount that was charged, and [userId] and
    [tournamentId] of the request; its type is ["entry_fee"] exactly when the
    charge had a tournament reference and ["other"] when it had none. *)
Theorem POST_record_mirrors_charge {W : Type} (env : Env W) (body : JsValue)
    (w : W) (response : Response) (run : Run W)
    (args : ChargeArgs.t) (completion : Completion Payment.t)
    (row : PaymentInsert.t) (reply : StoreReply) :
  POST env (Some body) w = (response, run) ->
  In (CallCreatePayment args completion) (calls run) ->
  In (CallInsertPayment row reply) (calls run) ->
  completion = Normal (PaymentInsert.metadata_square_payment row)
  /\ PaymentInsert.square_payment_id row
     = Payment.id (PaymentInsert.metadata_square_payment row)
  /\ PaymentInsert.currency row
     = Payment.currency (PaymentInsert.metadata_square_payment row)
  /\ PaymentInsert.metadata_idempotency_key row
     = ChargeArgs.idempotencyKey args
  /\ PaymentInsert.description row = ChargeArgs.note args
  /\ PaymentInsert.amount row = js_div (ChargeArgs.amount args) 100
  /\ PaymentInsert.user_id row = member body "userId"
  /\ PaymentInsert.tournament_id row = member body "tournamentId"
  /\ (ChargeArgs.referenceId args <> None ->
      PaymentInsert.payment_type row = "entry_fee")
  /\ (ChargeArgs.referenceId args = None ->
      PaymentInsert.payment_type row = "other").
Proof.
  intros E Hcharge Hinsert.
  destruct body; paths E; occurs; cbn in *; try discriminate.
  all: repeat split; try reflexivity; try congruence; try discriminate.
Qed.

(** X4. Without a truthy [tournamentId] or without a truthy [userId], a
    charged and recorded payment ends the run: charge and insert are its only
    calls, no registration is updated, and the response is the full-success
    response. *)
Theorem POST_no_registration_without_ids {W : Type} (env : Env W)
    (body : JsValue) (w : W) (response : Response) (run : Run W)
    (args : ChargeArgs.t) (payment : Payment.t)
    (row : PaymentInsert.t) (stored id : JsValue) :
  POST env (Some body) w = (response, run) ->
  In (CallCreatePayment args (Normal payment)) (calls run) ->
  In (CallInsertPayment row {| data := stored; error := None |})
     (calls run) ->
  get_prop stored "id" = Some id ->
  truthy (member body "tournamentId") = false
  \/ truthy (member body "userId") = false ->
  calls run
  = [CallCreatePayment args (Normal payment);
     CallInsertPayment row {| data := stored; error := None |}]
  /\ response = payment_created payment id
  /\ console run = [].
Proof.
  intros E Hcharge Hinsert Hid Habsent.
  destruct body; paths E; occurs; cbn in *; try discriminate;
    try congruence.
  all: tests; try (destruct Habsent; congruence).
  all: repeat split; congruence.
Qed.

(** X5. Whatever the request and the environment, a run of [POST] makes its
    calls in one order and each at most once: nothing, or the charge alone
    when it throws, or the charge and the insert, or the charge, an insert
    that replied without error, and the registration update.  In particular
    it never charges twice and never writes to the store before the gateway
    has charged. *)
Theorem POST_call_sequence {W : Type} (env : Env W)
    (request : option JsValue) (w : W) :
  calls (snd (POST env request w)) = []
  \/ (exists args e,
        calls (snd (POST env request w))
        = [CallCreatePayment args (Throw e)])
  \/ (exists args payment row reply,
        calls (snd (POST env request w))
        = [CallCreatePayment args (Normal payment);
           CallInsertPayment row reply])
  \/ (exists args payment row stored fields tournament_id user_id reply,
        calls (snd (POST env request w))
        = [CallCreatePayment args (Normal payment);
           CallInsertPayment row {| data := stored; error := None |};
           CallUpdateRegistration fields tournament_id user_id reply]).
Proof.
  destruct (POST env request w) as [response run] eqn:E. cbn [snd].
  destruct request as [body|]; [destruct body|]; paths E; cbn [calls app].
  all: try (left; reflexivity).
  all: try (right; left; do 2 eexists; reflexivity).
  all: try (right; right; left; do 4 eexists; reflexivity).
  all: right; right; right;
    match goal with
    | H : payments_insert _ _ _ = (?r, _), H' : error ?r = None |- _ =>
        destruct r as [stored err]; cbn in H'; subst err
    end;
    do 8 eexists; reflexivity.
Qed.

(** X6. Whatever the request and the environment, a run of [PUT] makes no
    call or the one update of [payments]: it never calls the gateway, never
    inserts a payment and never touches a registration. *)
Theorem PUT_call_sequence {W : Type} (env : Env W)
    (request : option JsValue) (w : W) :
  calls (snd (PUT env request w)) = []
  \/ (exists fields square_payment_id reply,
        calls (snd (PUT env request w))
        = [CallUpdatePayment fields square_payment_id reply]).
Proof.
  destruct (PUT env request w) as [response run] eqn:E. cbn [snd].
  destruct request as [body|]; [destruct body|]; paths E; cbn [calls app].
  all: try (left; reflexivity).
  all: right; do 3 eexists; reflexivity.
Qed.

(** X7. The status code and the [success] flag of a [POST] response agree:
    the status is 200, 400 or 500, [success] is [true] exactly on 200 and
    [false] otherwise, and every other response has an [error] message.  A
    200 is only given for a charge the gateway has made, and names it: the
    run has a successful charge and [paymentId] is its id. *)
Theorem POST_success_means_charged {W : Type} (env : Env W)
    (request : option JsValue) (w : W) :
  (http_status (fst (POST env request w)) = 200%Z
   \/ http_status (fst (POST env request w)) = 400%Z
   \/ http_status (fst (POST env request w)) = 500%Z)
  /\ (http_status (fst (POST env request w)) = 200%Z ->
      field (fst (POST env request w)) "success" = JBool true
      /\ field (fst (POST env request w)) "error" = JUndefined
      /\ exists args payment,
           In (CallCreatePayment args (Normal payment))
              (calls (snd (POST env request w)))
           /\ field (fst (POST env request w)) "paymentId"
              = JStr (Payment.id payment))
  /\ (http_status (fst (POST env request w)) <> 200%Z ->
      field (fst (POST env request w)) "success" = JBool false
      /\ field (fst (POST env request w)) "paymentId" = JUndefined
      /\ exists message,
           field (fst (POST env request w)) "error" = JStr message).
Proof.
  destruct (POST env request w) as [response run] eqn:E. cbn [fst snd].
  destruct request as [body|]; [destruct body|]; paths E; cbn.
  all: split; [auto|split; intros Hstatus; try discriminate Hstatus;
                    try (exfalso; apply Hstatus; reflexivity)].
  all: repeat split; eauto.
Qed.

(** X8. The same for [PUT]: [success] is [true] exactly on 200, and a 200 is
    only given after an update of [payments] to which the store replied
    without error; it carries the row of that reply. *)
Theorem PUT_success_means_updated {W : Type} (env : Env W)
    (request : option JsValue) (w : W) :
  (http_status (fst (PUT env request w)) = 200%Z
   \/ http_status (fst (PUT env request w)) = 400%Z
   \/ http_status (fst (PUT env request w)) = 500%Z)
  /\ (http_status (fst (PUT env request w)) = 200%Z ->
      field (fst (PUT env request w)) "success" = JBool true
      /\ exists fields square_payment_id stored,
           calls (snd (PUT env request w))
           = [CallUpdatePayment fields square_payment_id
                {| data := stored; error := None |}]
           /\ field (fst (PUT env request w)) "payment" = stored)
  /\ (http_status (fst (PUT env request w)) <> 200%Z ->
      field (fst (PUT env request w)) "success" = JBool false
      /\ field (fst (PUT env request w)) "payment" = JUndefined
      /\ exists message,
           field (fst (PUT env request w)) "error" = JStr message).
Proof.
  destruct (PUT env request w) as [response run] eqn:E. cbn [fst snd].
  destruct request as [body|]; [destruct body|]; paths E; cbn.
  all: split; [auto|split; intros Hstatus; try discriminate Hstatus;
                    try (exfalso; apply Hstatus; reflexivity)].
  all: try (repeat split; eauto; fail).
  all: split; [reflexivity|].
  all: match goal with
       | H : payments_update _ _ _ _ = (?r, _), H' : error ?r = None |- _ =>
           destruct r as [stored err]; cbn in H'; subst err
       end.
  all: do 3 eexists; split; reflexivity.
Qed.

(** X9. The gateway is called exactly for the requests that pass validation
    and whose [tournamentId] is falsy or converts to a string; for every
    other body, and for a body that is not JSON, the run makes no call. *)
Theorem POST_charges_iff_valid {W : Type} (env : Env W) (body : JsValue)
    (w : W) :
  (calls (snd (POST env (Some body) w)) <> []
   <-> valid_request body
       /\ (truthy (member body "tournamentId") = false
           \/ exists s : string,
                ToString (Number_toString env) (member body "tournamentId")
                = Some s))
  /\ calls (snd (POST env None w)) = [].
Proof.
  split; [|reflexivity].
  rewrite valid_request_passes_validation.
  destruct (POST env (Some body) w) as [response run] eqn:E. cbn [snd].
  destruct body; unfold member; cbn [get_prop].
  all: paths E; cbn [calls app].
  all: split;
    [intros Hcalls; try (exfalso; apply Hcalls; reflexivity)
    |intros [[Hpresent Hamount] Hreference]; try discriminate;
     try congruence].
  all: try (split; [split; [assumption|assumption]|]; eauto; fail).
  all: try (split; [split; reflexivity|]; eauto; fail).
  all: try (destruct Hreference as [Hfalsy|[s' Hs]]; congruence).
Qed.

(** X10. After a successful charge the response is 200 unless the store's
    reply to the insert carries neither an error nor a row: that reply alone
    ([data] and [error] both [null]) turns the charged payment into a 500,
    because reading the record's [id] throws. *)
Theorem POST_charged_yet_failed {W : Type} (env : Env W) (body : JsValue)
    (w : W) (response : Response) (run : Run W)
    (args : ChargeArgs.t) (payment : Payment.t) :
  POST env (Some body) w = (response, run) ->
  In (CallCreatePayment args (Normal payment)) (calls run) ->
  http_status response <> 200%Z ->
  response = processing_failed
  /\ exists (row : PaymentInsert.t) (stored : JsValue),
       In (CallInsertPayment row {| data := stored; error := None |})
          (calls run)
       /\ destructurable stored = false.
Proof.
  intros E Hcharge Hstatus.
  destruct body; paths E; occurs; cbn in *; try discriminate;
    try (exfalso; apply Hstatus; reflexivity).
  all: split; [reflexivity|].
  all: match goal with
       | H : payments_insert _ _ _ = (?r, _), H' : error ?r = None |- _ =>
           destruct r as [stored err]; cbn in *; subst err
       end.
  all: do 2 eexists; split; [right; left; reflexivity|].
  all: destruct stored; cbn in *; try discriminate; reflexivity.
Qed.

(** X11. The two handlers spell a status alike: both pass it through the
    same [toLowerCase].  When [POST] has recorded a payment whose gateway
    status is the non-empty string [S], an update-status request with a
    present [paymentId] and the status [S] asks the store to write the very
    string of the record.  So does a request that carries the recorded
    string itself, when [S] is made of ASCII characters. *)
Theorem PUT_writes_the_recorded_spelling {W : Type}
    (env : Env W) (body : JsValue) (w : W)
    (response : Response) (run : Run W)
    (args : ChargeArgs.t) (payment : Payment.t)
    (row : PaymentInsert.t) (reply : StoreReply)
    (update : JsValue) (v : W) :
  POST env (Some body) w = (response, run) ->
  In (CallCreatePayment args (Normal payment)) (calls run) ->
  In (CallInsertPayment row reply) (calls run) ->
  Payment.status payment <> "" ->
  truthy (member update "paymentId") = true ->
  member update "status" = JStr (Payment.status payment)
  \/ (lowercases_ascii (toLowerCase env)
      /\ ascii_only (Payment.status payment) = true
      /\ member update "status" = JStr (PaymentInsert.status row)) ->
  exists (fields : PaymentUpdate.t) (reply' : StoreReply),
    calls (snd (PUT env (Some update) v))
    = [CallUpdatePayment fields (member update "paymentId") reply']
    /\ PaymentUpdate.status fields = PaymentInsert.status row.
Proof.
  intros E Hcharge Hinsert Hnonempty Hid Hstatus.
  assert (Hrow : PaymentInsert.status row
                 = toLowerCase env (Payment.status payment)).
  { destruct body; paths E; occurs; cbn in *; try discriminate;
      reflexivity. }
  assert (Htext : exists text : string,
            member update "status" = JStr text /\ text <> ""
            /\ toLowerCase env text = PaymentInsert.status row).
  { destruct Hstatus as [Hs|(Hruntime & Hascii & Hs)].
    - exists (Payment.status payment). rewrite Hrow. auto.
    - exists (PaymentInsert.status row). split; [exact Hs|].
      rewrite Hrow, (Hruntime _ Hascii).
      split; [apply ascii_toLowerCase_nonempty; exact Hnonempty|].
      rewrite (Hruntime _ (ascii_toLowerCase_stays_ascii _ Hascii)).
      apply ascii_toLowerCase_idempotent. }
  destruct Htext as (text & Htext & Hne & Hsame).
  destruct (PUT env (Some update) v) as [response' run'] eqn:E'.
  destruct update; try discriminate Hid; unfold member in *;
    cbn [get_prop snd] in *.
  paths E'; tests; cbn in *; try discriminate; try congruence.
  all: try match goal with
         | H : (_ || _) = true |- _ =>
             rewrite Hid, Htext in H; cbn in H;
             destruct (String.eqb_spec text ""); [congruence|discriminate H]
         end.
  all: injection Htext as ->; do 2 eexists; split; [reflexivity|assumption].
Qed.

(** X12. [POST] logs exactly when something went wrong.  The console is
    empty after a run if and only if the response is not a 500, the gateway
    did not throw, and neither the insert nor the registration update replied
    with an error: a rejected request is not logged, and no failure of the
    gateway or of the store passes unlogged. *)
Theorem POST_logs_every_failure {W : Type} (env : Env W)
    (request : option JsValue) (w : W) (response : Response) (run : Run W) :
  POST env request w = (response, run) ->
  console run = []
  <-> (http_status response <> 500%Z
       /\ (forall args e, ~ In (CallCreatePayment args (Throw e)) (calls run))
       /\ (forall row stored e,
             ~ In (CallInsertPayment row
                     {| data := stored; error := Some e |}) (calls run))
       /\ (forall fields tournament_id user_id e,
             ~ In (CallUpdateRegistration fields tournament_id user_id
                     (Some e)) (calls run))).
Proof.
  intros E.
  destruct request as [body|]; [destruct body|]; paths E;
    cbn [console calls app http_status].
  all: split;
    [intros Hconsole; try discriminate Hconsole
    |intros (Hstatus & Hgateway & Hinsert & Hregistration)].
  all: try (exfalso; apply Hstatus; reflexivity).
  all: try (exfalso; eapply Hgateway; left; reflexivity).
  all: try (exfalso;
            match goal with
            | H : payments_insert _ _ _ = (?r, _), H' : error ?r = Some _
              |- _ => destruct r as [stored err]; cbn in H'; subst err
            end;
            eapply Hinsert; right; left; reflexivity).
  all: try (exfalso; eapply Hregistration; right; right; left; reflexivity).
  all: try reflexivity.
  all: repeat split; try discriminate; intros; intros Hin; cbn in Hin;
    repeat match goal with
      | H : _ \/ _ |- _ => destruct H
      | H : False |- _ => destruct H
      | H : @eq Call _ _ |- _ =>
          first [discriminate H | inversion H; clear H]
      end; subst; cbn in *; congruence.
Qed.

(** X13. [PUT] logs exactly its failures: the console is empty after a run
    if and only if the response is not a 500. *)
Theorem PUT_logs_every_failure {W : Type} (env : Env W)
    (request : option JsValue) (w : W) (response : Response) (run : Run W) :
  PUT env request w = (response, run) ->
  console run = [] <-> http_status response <> 500%Z.
Proof.
  intros E.
  destruct request as [body|]; [destruct body|]; paths E;
    cbn [console calls app http_status].
  all: split; [intros Hconsole; try discriminate|intros Hstatus];
    try reflexivity; try discriminate.
  all: exfalso; apply Hstatus; reflexivity.
Qed.

(** X14. What the gateway is asked to charge is always validated: in every
    run of [POST], for every request, a call of the gateway has a truthy
    [sourceId] and [idempotencyKey], an amount that is a positive integer,
    and the currency ["GBP"]; these are the request's members, unchanged. *)
Theorem POST_charges_only_validated_amounts {W : Type} (env : Env W)
    (body : JsValue) (w : W) (response : Response) (run : Run W)
    (args : ChargeArgs.t) (completion : Completion Payment.t) :
  POST env (Some body) w = (response, run) ->
  In (CallCreatePayment args completion) (calls run) ->
  PositiveInteger (ChargeArgs.amount args)
  /\ truthy (ChargeArgs.sourceId args) = true
  /\ truthy (ChargeArgs.idempotencyKey args) = true
  /\ ChargeArgs.currency args = "GBP"
  /\ ChargeArgs.amount args = member body "amount"
  /\ ChargeArgs.sourceId args = member body "sourceId"
  /\ ChargeArgs.idempotencyKey args = member body "idempotencyKey".
Proof.
  intros E Hcharge.
  destruct body; paths E; occurs; cbn in *; try discriminate.
  all: tests; repeat split; try assumption.
  all: apply checks_PositiveInteger; assumption.
Qed.

(** X15. A registration is marked as paid only for a payment that was
    charged and recorded, and it points to that record: whenever a run
    updates [tournament_registrations], the insert of the run replied
    without error, the update selects the record's [tournament_id] and
    [user_id], both truthy, and writes ["completed"], the record's
    [square_payment_id] and the record's amount. *)
Theorem POST_registration_follows_record {W : Type} (env : Env W)
    (body : JsValue) (w : W) (response : Response) (run : Run W)
    (fields : RegistrationUpdate.t) (tournament_id user_id : JsValue)
    (reply : option string) :
  POST env (Some body) w = (response, run) ->
  In (CallUpdateRegistration fields tournament_id user_id reply)
     (calls run) ->
  exists (row : PaymentInsert.t) (stored : JsValue),
    In (CallInsertPayment row {| data := stored; error := None |})
       (calls run)
    /\ tournament_id = PaymentInsert.tournament_id row
    /\ user_id = PaymentInsert.user_id row
    /\ truthy tournament_id = true
    /\ truthy user_id = true
    /\ RegistrationUpdate.payment_status fields = "completed"
    /\ RegistrationUpdate.payment_id fields
       = PaymentInsert.square_payment_id row
    /\ RegistrationUpdate.payment_amount fields = PaymentInsert.amount row
    /\ PaymentInsert.payment_type row = "entry_fee".
Proof.
  intros E Hupdate.
  destruct body; paths E; occurs; cbn in *; try discriminate.
  all: tests.
  all: match goal with
       | H : payments_insert _ _ _ = (?r, _), H' : error ?r = None |- _ =>
           destruct r as [stored err]; cbn in *; subst err
       end.
  all: do 2 eexists; split; [right; left; reflexivity|].
  all: cbn; repeat split; assumption.
Qed.

(** ** The further properties at work on the reference backend *)

(** An amount of 0 counts as missing, an amount of -5 as invalid. *)
Lemma POST_validation_messages_witness :
  truthy (member zero_amount_request "amount") = false
  /\ field (fst (POST backend (Some zero_amount_request)
                   (shop accepting_gateway))) "error"
     = JStr "Missing required payment information"
  /\ truthy (member negative_amount_request "amount") = true
  /\ field (fst (POST backend (Some negative_amount_request)
                   (shop accepting_gateway))) "error"
     = JStr "Invalid payment amount".
Proof.
  destruct (POST_validation_messages backend zero_amount_request
              (shop accepting_gateway) eq_refl) as (Hmissing & _).
  destruct (POST_validation_messages backend negative_amount_request
              (shop accepting_gateway) eq_refl) as (_ & Hinvalid).
  split; [reflexivity|]. split.
  - apply Hmissing. right. left. reflexivity.
  - split; [reflexivity|]. apply Hinvalid; try reflexivity.
    intros (z & q & Hz & Heq & Hq). injection Heq as <-.
    unfold Qeq in Hq. simpl in Hq. lia.
Defined.

(** A gateway that cannot be reached: 500 and the generic message. *)
Lemma POST_unexpected_gateway_error_witness :
  http_status (fst unreachable_run) = 500%Z
  /\ field (fst unreachable_run) "success" = JBool false
  /\ field (fst unreachable_run) "error" = JStr "Payment processing failed"
  /\ calls (snd unreachable_run)
     = [CallCreatePayment donation_args (Throw (OtherError "FetchError"))]
  /\ console (snd unreachable_run) = ["Payment processing error:"].
Proof.
  apply (POST_unexpected_gateway_error backend donation_request
           (shop unreachable_gateway) (fst unreachable_run)
           (snd unreachable_run) donation_args "FetchError").
  - reflexivity.
  - simpl. left. reflexivity.
Defined.

(** The record of the entry fee against the charge that preceded it. *)
Lemma POST_record_mirrors_charge_witness :
  PaymentInsert.metadata_idempotency_key entry_fee_record
  = ChargeArgs.idempotencyKey entry_fee_args
  /\ PaymentInsert.amount entry_fee_record
     = js_div (ChargeArgs.amount entry_fee_args) 100
  /\ PaymentInsert.payment_type entry_fee_record = "entry_fee".
Proof.
  destruct (POST_record_mirrors_charge backend entry_fee_request
              (shop accepting_gateway) (fst entry_fee_run)
              (snd entry_fee_run) entry_fee_args (Normal entry_fee_payment)
              entry_fee_record
              {| data := payment_row 1 entry_fee_record; error := None |})
    as (_ & _ & _ & Hkey & _ & Hamount & _ & _ & Htype & _).
  - reflexivity.
  - simpl. left. reflexivity.
  - simpl. right. left. reflexivity.
  - split; [exact Hkey|]. split; [exact Hamount|].
    apply Htype. discriminate.
Defined.

(** An entry fee paid without [userId]: recorded, and no registration
    updated. *)
Lemma POST_no_registration_without_ids_witness :
  truthy (member anonymous_entry_request "tournamentId") = true
  /\ truthy (member anonymous_entry_request "userId") = false
  /\ calls (snd anonymous_entry_run)
     = [CallCreatePayment anonymous_entry_args (Normal entry_fee_payment);
        CallInsertPayment anonymous_entry_record
          {| data := payment_row 1 anonymous_entry_record; error := None |}]
  /\ fst anonymous_entry_run
     = payment_created entry_fee_payment (JNum (Finite 1))
  /\ console (snd anonymous_entry_run) = [].
Proof.
  split; [reflexivity|]. split; [reflexivity|].
  apply (POST_no_registration_without_ids backend anonymous_entry_request
           (shop accepting_gateway) (fst anonymous_entry_run)
           (snd anonymous_entry_run) anonymous_entry_args entry_fee_payment
           anonymous_entry_record (payment_row 1 anonymous_entry_record)
           (JNum (Finite 1))).
  - reflexivity.
  - simpl. left. reflexivity.
  - simpl. right. left. reflexivity.
  - reflexivity.
  - right. reflexivity.
Defined.

(** The 200 of the entry-fee run names the charge of the run. *)
Lemma POST_success_means_charged_witness :
  http_status (fst entry_fee_run) = 200%Z
  /\ field (fst entry_fee_run) "success" = JBool true
  /\ exists args payment,
       In (CallCreatePayment args (Normal payment))
          (calls (snd entry_fee_run))
       /\ field (fst entry_fee_run) "paymentId" = JStr (Payment.id payment).
Proof.
  destruct (POST_success_means_charged backend (Some entry_fee_request)
              (shop accepting_gateway)) as (_ & Hsuccess & _).
  destruct (Hsuccess eq_refl) as (Hflag & _ & Hcharge).
  split; [reflexivity|]. split; [exact Hflag|exact Hcharge].
Defined.

(** The 200 of the refund run carries the row the store returned. *)
Lemma PUT_success_means_updated_witness :
  http_status (fst refund_run) = 200%Z
  /\ field (fst refund_run) "success" = JBool true
  /\ exists fields square_payment_id stored,
       calls (snd refund_run)
       = [CallUpdatePayment fields square_payment_id
            {| data := stored; error := None |}]
       /\ field (fst refund_run) "payment" = stored.
Proof.
  destruct (PUT_success_means_updated backend (Some refund_update)
              paid_shop) as (_ & Hsuccess & _).
  destruct (Hsuccess eq_refl) as (Hflag & Hupdate).
  split; [reflexivity|]. split; [exact Hflag|exact Hupdate].
Defined.

(** The entry-fee request is valid and its tournament is a string: the
    gateway is called.  The request with the unprintable tournament is valid
    too, and the gateway is not called. *)
Lemma POST_charges_iff_valid_witness :
  calls (snd entry_fee_run) <> []
  /\ ~ (truthy (member unprintable_tournament_request "tournamentId") = false
        \/ exists s : string,
             ToString integer_toString
               (member unprintable_tournament_request "tournamentId")
             = Some s).
Proof.
  split.
  - apply (proj1 (POST_charges_iff_valid backend entry_fee_request
                    (shop accepting_gateway))).
    split.
    + split; [reflexivity|split; [reflexivity|]].
      exists 500%Z, 500. split; [lia|split; reflexivity].
    + right. exists "t7". reflexivity.
  - intros Hreference.
    assert (Hvalid : valid_request unprintable_tournament_request).
    { split; [reflexivity|split; [reflexivity|]].
      exists 500%Z, 500. split; [lia|split; reflexivity]. }
    apply (proj2 (proj1 (POST_charges_iff_valid backend
                           unprintable_tournament_request
                           (shop accepting_gateway)))
             (conj Hvalid Hreference)).
    reflexivity.
Defined.

(** A store that replies with neither error nor row: charged, and 500. *)
Lemma POST_charged_yet_failed_witness :
  In (CallCreatePayment entry_fee_args (Normal entry_fee_payment))
     (calls (snd mute_run))
  /\ http_status (fst mute_run) = 500%Z
  /\ fst mute_run = processing_failed
  /\ exists (row : PaymentInsert.t) (stored : JsValue),
       In (CallInsertPayment row {| data := stored; error := None |})
          (calls (snd mute_run))
       /\ destructurable stored = false.
Proof.
  split; [simpl; left; reflexivity|]. split; [reflexivity|].
  apply (POST_charged_yet_failed mute_backend entry_fee_request
           (shop accepting_gateway) (fst mute_run) (snd mute_run)
           entry_fee_args entry_fee_payment).
  - reflexivity.
  - simpl. left. reflexivity.
  - simpl. discriminate.
Defined.

(** ["COMPLETED"] sent to [PUT] is written as the ["completed"] that [POST]
    recorded. *)
Lemma PUT_writes_the_recorded_spelling_witness :
  member completed_update "status" = JStr "COMPLETED"
  /\ In (CallInsertPayment entry_fee_record
           {| data := payment_row 1 entry_fee_record; error := None |})
        (calls (snd entry_fee_run))
  /\ exists (fields : PaymentUpdate.t) (reply' : StoreReply),
       calls (snd (PUT backend (Some completed_update) paid_shop))
       = [CallUpdatePayment fields (member completed_update "paymentId")
            reply']
       /\ PaymentUpdate.status fields = PaymentInsert.status entry_fee_record
       /\ PaymentUpdate.status fields = "completed".
Proof.
  split; [reflexivity|].
  assert (Hinsert :
    In (CallInsertPayment entry_fee_record
          {| data := payment_row 1 entry_fee_record; error := None |})
       (calls (snd entry_fee_run)))
    by (simpl; right; left; reflexivity).
  split; [exact Hinsert|].
  destruct (PUT_writes_the_recorded_spelling backend entry_fee_request
              (shop accepting_gateway) (fst entry_fee_run)
              (snd entry_fee_run) entry_fee_args entry_fee_payment
              entry_fee_record
              {| data := payment_row 1 entry_fee_record; error := None |}
              completed_update paid_shop)
    as (fields & reply' & Hcalls & Hsame).
  - reflexivity.
  - simpl. left. reflexivity.
  - exact Hinsert.
  - simpl. discriminate.
  - reflexivity.
  - left. reflexivity.
  - exists fields, reply'. split; [exact Hcalls|]. split; [exact Hsame|].
    rewrite Hsame. reflexivity.
Defined.

(** The clean run logs nothing; the run with the refused registration
    update logs it. *)
Lemma POST_logs_every_failure_witness :
  console (snd entry_fee_run) = []
  /\ http_status (fst entry_fee_run) <> 500%Z
  /\ console (snd unsynced_run) <> [].
Proof.
  split; [reflexivity|]. split.
  - apply (proj1 (POST_logs_every_failure backend (Some entry_fee_request)
                    (shop accepting_gateway) (fst entry_fee_run)
                    (snd entry_fee_run) eq_refl) eq_refl).
  - intros Hsilent.
    destruct (proj1 (POST_logs_every_failure backend
                       (Some entry_fee_request)
                       (with_registration_fault (shop accepting_gateway))
                       (fst unsynced_run) (snd unsynced_run) eq_refl)
                Hsilent) as (_ & _ & _ & Hregistration).
    apply (Hregistration entry_fee_registration (JStr "t7") (JStr "u1")
             "permission denied").
    simpl. right. right. left. reflexivity.
Defined.

(** The refund run logs nothing; the update with a numeric status is
    logged. *)
Lemma PUT_logs_every_failure_witness :
  console (snd refund_run) = []
  /\ http_status (fst (PUT backend (Some numeric_status_update) paid_shop))
     = 500%Z
  /\ console (snd (PUT backend (Some numeric_status_update) paid_shop)) <> [].
Proof.
  split.
  - apply (proj2 (PUT_logs_every_failure backend (Some refund_update)
                    paid_shop (fst refund_run) (snd refund_run) eq_refl)).
    simpl. discriminate.
  - split; [reflexivity|]. intros Hsilent.
    apply (proj1 (PUT_logs_every_failure backend
                    (Some numeric_status_update) paid_shop _ _ eq_refl)
             Hsilent).
    reflexivity.
Defined.

(** The charge of the entry fee: 500 pence, in GBP. *)
Lemma POST_charges_only_validated_amounts_witness :
  PositiveInteger (ChargeArgs.amount entry_fee_args)
  /\ truthy (ChargeArgs.sourceId entry_fee_args) = true
  /\ truthy (ChargeArgs.idempotencyKey entry_fee_args) = true
  /\ ChargeArgs.currency entry_fee_args = "GBP"
  /\ ChargeArgs.amount entry_fee_args = member entry_fee_request "amount"
  /\ ChargeArgs.sourceId entry_fee_args
     = member entry_fee_request "sourceId"
  /\ ChargeArgs.idempotencyKey entry_fee_args
     = member entry_fee_request "idempotencyKey".
Proof.
  apply (POST_charges_only_validated_amounts backend entry_fee_request
           (shop accepting_gateway) (fst entry_fee_run) (snd entry_fee_run)
           entry_fee_args (Normal entry_fee_payment)).
  - reflexivity.
  - simpl. left. reflexivity.
Defined.

(** The registration update of the entry-fee run points to its record. *)
Lemma POST_registration_follows_record_witness :
  exists (row : PaymentInsert.t) (stored : JsValue),
    In (CallInsertPayment row {| data := stored; error := None |})
       (calls (snd entry_fee_run))
    /\ JStr "t7" = PaymentInsert.tournament_id row
    /\ JStr "u1" = PaymentInsert.user_id row
    /\ truthy (JStr "t7") = true
    /\ truthy (JStr "u1") = true
    /\ RegistrationUpdate.payment_status entry_fee_registration = "completed"
    /\ RegistrationUpdate.payment_id entry_fee_registration
       = PaymentInsert.square_payment_id row
    /\ RegistrationUpdate.payment_amount entry_fee_registration
       = PaymentInsert.amount row
    /\ PaymentInsert.payment_type row = "entry_fee".
Proof.
  apply (POST_registration_follows_record backend entry_fee_request
           (shop accepting_gateway) (fst entry_fee_run) (snd entry_fee_run)
           entry_fee_registration (JStr "t7") (JStr "u1") None).
  - reflexivity.
  - simpl. right. right. left. reflexivity.
Defined.
